(** * glasses-stream: the unified stream system ([stream_unified.py])

    A shallow embedding of the capture / extraction / overlay / movement /
    persistence core of [stream_unified.py], and the properties the
    specification states about it.

    Conventions of the embedding:
    - Python integers are [Z]; list lengths and array extents are [nat]
      and are converted where the source compares them with integers.
    - A method that mutates the shared [StreamConfig] is a function from
      the configuration before the call to the configuration after it.
    - Code that can raise returns a [result]; code whose [try]/[except]
      keeps the mutations made before the exception runs in the monad
      [Py], which threads the state through a raise.
    - What lies outside the program answers the calls made to it: the
      allocator ([Memory]), OpenCV's drawing and contour search
      ([Drawing], [Vision]), and, call by call, the keyboard, the
      screen, the display, the file system and the capture thread
      ([Env], [Shutdown]).  A call raises when the answer says so. *)

From Stdlib Require Import ZArith QArith.QArith_base Strings.String Strings.Ascii.
From Stdlib Require Import Numbers.DecimalString.
From stdpp Require Import base option list strings gmap.

Local Open Scope string_scope.
Local Open Scope list_scope.
Local Open Scope Z_scope.

(** ** Enumerations (lines 20-31) *)

Inductive MovementMode := FINE | NORMAL | FAST | TURBO.
Inductive OverlayMode := NONE | MINIMAL | STANDARD | FULL | DEBUG.

#[global] Instance MovementMode_eq_dec : EqDecision MovementMode.
Proof. solve_decision. Defined.
#[global] Instance OverlayMode_eq_dec : EqDecision OverlayMode.
Proof. solve_decision. Defined.

(** The [.value] of an enumeration member. *)
Definition MovementMode_value (m : MovementMode) : Z :=
  match m with FINE => 1 | NORMAL => 5 | FAST => 10 | TURBO => 20 end.

Definition OverlayMode_value (m : OverlayMode) : Z :=
  match m with NONE => 0 | MINIMAL => 1 | STANDARD => 2 | FULL => 3 | DEBUG => 4 end.

(** The [.name] of a movement mode, shown by the info panel. *)
Definition MovementMode_name (m : MovementMode) : string :=
  match m with FINE => "FINE" | NORMAL => "NORMAL" | FAST => "FAST" | TURBO => "TURBO" end.

(** [list(MovementMode)]: the members in definition order. *)
Definition MovementMode_members : list MovementMode := [FINE; NORMAL; FAST; TURBO].

(** ** Exceptions and results

    [Cv2Error] is OpenCV's [cv2.error]; [Empty] is [queue.Empty]. *)

Inductive exn :=
  | ValueError | TypeError | AttributeError | JSONDecodeError | OSError | Empty
  | MemoryError | Cv2Error.

Inductive result (A : Type) :=
  | Ok (a : A)
  | Raise (e : exn).
Arguments Ok {A} a.
Arguments Raise {A} e.

(** ** StreamConfig (lines 33-43)

    The dataclass annotates the four region attributes as [int], which
    Python does not enforce: [ConfigManager.load] stores whatever
    [json.load] produced.  The record is therefore parametrised by the
    type [V] of the region attributes: [StreamConfig Z] is a
    configuration as annotated, [StreamConfig value] one as the
    interpreter holds it. *)

Record StreamConfig (V : Type) := mkStreamConfig {
  x : V;
  y : V;
  width : V;
  height : V;
  overlay_mode : OverlayMode;
  movement_mode : MovementMode;
  auto_save : bool;
  config_file : string
}.
Arguments mkStreamConfig {V}.
Arguments x {V}. Arguments y {V}. Arguments width {V}. Arguments height {V}.
Arguments overlay_mode {V}. Arguments movement_mode {V}.
Arguments auto_save {V}. Arguments config_file {V}.

(** [StreamConfig()] with every field at its default. *)
Definition default_config : StreamConfig Z :=
  mkStreamConfig 40 330 340 230 STANDARD NORMAL true "stream_config.json".

(** Attribute assignment, one setter per attribute the code assigns. *)
Definition set_x {V} (v : V) (c : StreamConfig V) : StreamConfig V :=
  mkStreamConfig v (y c) (width c) (height c) (overlay_mode c) (movement_mode c)
                 (auto_save c) (config_file c).
Definition set_y {V} (v : V) (c : StreamConfig V) : StreamConfig V :=
  mkStreamConfig (x c) v (width c) (height c) (overlay_mode c) (movement_mode c)
                 (auto_save c) (config_file c).
Definition set_width {V} (v : V) (c : StreamConfig V) : StreamConfig V :=
  mkStreamConfig (x c) (y c) v (height c) (overlay_mode c) (movement_mode c)
                 (auto_save c) (config_file c).
Definition set_height {V} (v : V) (c : StreamConfig V) : StreamConfig V :=
  mkStreamConfig (x c) (y c) (width c) v (overlay_mode c) (movement_mode c)
                 (auto_save c) (config_file c).
Definition set_overlay_mode {V} (m : OverlayMode) (c : StreamConfig V) : StreamConfig V :=
  mkStreamConfig (x c) (y c) (width c) (height c) m (movement_mode c)
                 (auto_save c) (config_file c).
Definition set_movement_mode {V} (m : MovementMode) (c : StreamConfig V) : StreamConfig V :=
  mkStreamConfig (x c) (y c) (width c) (height c) (overlay_mode c) m
                 (auto_save c) (config_file c).

(** ** MovementController (lines 219-250) *)

Module MovementController.

(** The [movement_speeds] dictionary built by [__init__]. *)
Definition movement_speeds (m : MovementMode) : Z :=
  match m with FINE => 1 | NORMAL => 5 | FAST => 10 | TURBO => 20 end.

Definition move (c : StreamConfig Z) (dx dy : Z) (relative : bool) : StreamConfig Z :=
  if relative then
    let c := set_x (x c + dx * movement_speeds (movement_mode c)) c in
    set_y (y c + dy * movement_speeds (movement_mode c)) c
  else
    let c := set_x dx c in
    set_y dy c.

Definition resize (c : StreamConfig Z) (dw dh : Z) : StreamConfig Z :=
  let c := set_width (Z.max 50 (width c + dw)) c in
  set_height (Z.max 50 (height c + dh)) c.

Definition reset (c : StreamConfig Z) : StreamConfig Z :=
  let c := set_x 40 c in
  let c := set_y 330 c in
  let c := set_width 340 c in
  set_height 230 c.

(** A run of [resize] calls, each with its own pair of deltas. *)
Definition resize_all (c : StreamConfig Z) (deltas : list (Z * Z)) : StreamConfig Z :=
  foldl (fun c d => resize c d.1 d.2) c deltas.

End MovementController.

(** ** Frames and the numpy operations the capture engine uses

    A frame is an array of shape [(rows, columns, 3)] of 8-bit channels.
    The array keeps its column count beside its rows, since numpy knows
    the second extent of an array that has no row. *)

Definition pixel : Type := Z * Z * Z.
Definition black : pixel := (0, 0, 0).

Record ndarray := mk_ndarray {
  ncols : nat;
  rows : list (list pixel)
}.

Definition nrows (a : ndarray) : nat := length (rows a).
(** [a.shape[0]] and [a.shape[1]]. *)
Definition shape0 (a : ndarray) : Z := Z.of_nat (nrows a).
Definition shape1 (a : ndarray) : Z := Z.of_nat (ncols a).

(** Every row has [ncols] pixels: true of every array numpy builds. *)
Definition well_shaped (a : ndarray) : bool :=
  forallb (fun r => Nat.eqb (length r) (ncols a)) (rows a).

(** [a[i, j]] for indices inside the array. *)
Definition pixel_at (a : ndarray) (i j : nat) : option pixel :=
  rows a !! i ≫= fun r => r !! j.

(** How a slice bound [i] is adjusted to a sequence of length [n] (step
    1): a negative bound counts from the end, and the result is clipped
    to [0..n]. *)
Definition adjust_index (n i : Z) : Z :=
  if i <? 0 then Z.max 0 (i + n) else Z.min i n.

(** [l[start:stop]]. *)
Definition py_slice {A} (start stop : Z) (l : list A) : list A :=
  let n := Z.of_nat (length l) in
  let s := adjust_index n start in
  let e := adjust_index n stop in
  take (Z.to_nat (e - s)) (drop (Z.to_nat s) l).

(** The length of [l[start:stop]] for a sequence of length [n]. *)
Definition py_slice_len (n start stop : Z) : nat :=
  Z.to_nat (adjust_index n stop - adjust_index n start).

(** [a[y1:y2, x1:x2]]. *)
Definition slice2 (a : ndarray) (y1 y2 x1 x2 : Z) : ndarray :=
  {| ncols := py_slice_len (shape1 a) x1 x2;
     rows := py_slice x1 x2 <$> py_slice y1 y2 (rows a) |}.

(** Whether [np.zeros] gets its buffer is the allocator's answer: the
    exception raised for an array of [h] rows and [w] columns, if any
    ([ValueError] past numpy's size limit, [MemoryError] when the
    memory runs out). *)
Class Memory := {
  np_zeros_raises : Z -> Z -> option exn
}.

(** [np.zeros((h, w, 3), dtype=np.uint8)]: a negative extent raises, and
    so does a buffer the allocator does not give. *)
Definition np_zeros `{Memory} (h w : Z) : result ndarray :=
  if (h <? 0) || (w <? 0) then Raise ValueError
  else match np_zeros_raises h w with
       | Some e => Raise e
       | None =>
           Ok {| ncols := Z.to_nat w;
                 rows := replicate (Z.to_nat h) (replicate (Z.to_nat w) black) |}
       end.

(** Broadcasting of one axis: a source extent fits a target extent when
    they are equal or the source extent is 1. *)
Definition broadcastable (s t : nat) : bool :=
  bool_decide (s = t) || bool_decide (s = 1%nat).

(** The values of one axis stretched to the target extent. *)
Definition stretch {A} (t : nat) (l : list A) : list A :=
  if decide (length l = t) then l
  else match l with
       | [a] => replicate t a
       | _ => l
       end.

(** [dst[:stop0, :stop1] = src]: the selected block of [dst] has the
    extents the two slices select; [src] is broadcast to it, and the
    assignment raises when it does not fit. *)
Definition setitem_prefix (dst : ndarray) (stop0 stop1 : Z) (src : ndarray)
  : result ndarray :=
  let t0 := py_slice_len (shape0 dst) 0 stop0 in
  let t1 := py_slice_len (shape1 dst) 0 stop1 in
  if broadcastable (nrows src) t0 && broadcastable (ncols src) t1 then
    let block := stretch t0 (stretch t1 <$> rows src) in
    Ok {| ncols := ncols dst;
          rows := zip_with (fun v d => v ++ drop t1 d) block (take t0 (rows dst))
                  ++ drop t0 (rows dst) |}
  else Raise ValueError.

(** ** The bounded hand-off buffer: [queue.Queue]

    Only the calls the capture engine makes are modelled, in a
    sequential run: a blocking call that could not proceed returns
    [None]. *)

Record Queue (A : Type) := mkQueue {
  maxsize : Z;
  items : list A
}.
Arguments mkQueue {A}.
Arguments maxsize {A}.
Arguments items {A}.

Definition qsize {A} (q : Queue A) : Z := Z.of_nat (length (items q)).

(** [Queue.full()]: a queue with [maxsize <= 0] is never full. *)
Definition q_full {A} (q : Queue A) : bool :=
  (0 <? maxsize q) && (maxsize q <=? qsize q).

(** [Queue.put(item)], blocking. *)
Definition q_put {A} (q : Queue A) (a : A) : option (Queue A) :=
  if q_full q then None else Some (mkQueue (maxsize q) (items q ++ [a])).

(** [Queue.get()], blocking. *)
Definition q_get {A} (q : Queue A) : option (A * Queue A) :=
  match items q with
  | [] => None
  | a :: rest => Some (a, mkQueue (maxsize q) rest)
  end.

(** [Queue.get_nowait()]: raises [queue.Empty] on an empty queue. *)
Definition q_get_nowait {A} (q : Queue A) : result (A * Queue A) :=
  match items q with
  | [] => Raise Empty
  | a :: rest => Ok (a, mkQueue (maxsize q) rest)
  end.

(** ** StreamCapture (lines 45-111) *)

Module StreamCapture.

(** The [frame_queue] built by [__init__]: [queue.Queue(maxsize=30)]. *)
Definition new_frame_queue : Queue ndarray := mkQueue 30 [].

Definition _extract_region `{Memory} (config : StreamConfig Z) (frame : ndarray)
  : result ndarray :=
  let y1 := Z.max 0 (y config) in
  let y2 := Z.min (shape0 frame) (y config + height config) in
  let x1 := Z.max 0 (x config) in
  let x2 := Z.min (shape1 frame) (x config + width config) in
  let stream := slice2 frame y1 y2 x1 x2 in
  if (shape0 stream <? height config) || (shape1 stream <? width config) then
    match np_zeros (height config) (width config) with
    | Raise e => Raise e
    | Ok padded => setitem_prefix padded (shape0 stream) (shape1 stream) stream
    end
  else Ok stream.

(** Lines 80-82 of [_capture_loop]: drop the oldest frame when the
    queue is full, then put the new one. *)
Definition publish (q : Queue ndarray) (stream : ndarray) : option (Queue ndarray) :=
  q ← (if q_full q then snd <$> q_get q else Some q);
  q_put q stream.

(** One turn of [_capture_loop] on the screenshot [frame]: an
    exception of the turn is caught and the queue is left as it was. *)
Definition capture_turn `{Memory} (config : StreamConfig Z) (q : Queue ndarray)
           (frame : ndarray) : option (Queue ndarray) :=
  match _extract_region config frame with
  | Ok stream => publish q stream
  | Raise _ => Some q
  end.

(** [publish] for each frame of a list, oldest first. *)
Fixpoint publish_all (q : Queue ndarray) (streams : list ndarray)
  : option (Queue ndarray) :=
  match streams with
  | [] => Some q
  | s :: rest => q ← publish q s; publish_all q rest
  end.

Definition get_frame (q : Queue ndarray) : result (option ndarray * Queue ndarray) :=
  match q_get_nowait q with
  | Ok (frame, q) => Ok (Some frame, q)
  | Raise Empty => Ok (None, q)
  | Raise e => Raise e
  end.

(** [n] polls in a row: the frames they return, and the queue left. *)
Fixpoint poll (n : nat) (q : Queue ndarray)
  : result (list (option ndarray) * Queue ndarray) :=
  match n with
  | O => Ok ([], q)
  | S n =>
      match get_frame q with
      | Raise e => Raise e
      | Ok (f, q) =>
          match poll n q with
          | Raise e => Raise e
          | Ok (fs, q) => Ok (f :: fs, q)
          end
      end
  end.

End StreamCapture.

(** ** The extraction the specification describes

    Written from the specification's words, to be compared with
    [StreamCapture._extract_region]: the intersection of the region with
    the frame bounds is copied into the top-left corner of a black
    buffer of the requested size. *)

Module Reference.

Definition extract (config : StreamConfig Z) (frame : ndarray) : ndarray :=
  let top := Z.max 0 (y config) in
  let left := Z.max 0 (x config) in
  let bottom := Z.min (shape0 frame) (y config + height config) in
  let right := Z.min (shape1 frame) (x config + width config) in
  {| ncols := Z.to_nat (width config);
     rows :=
       (fun i : Z =>
          (fun j : Z =>
             if (i <? bottom - top) && (j <? right - left) then
               default black (pixel_at frame (Z.to_nat (top + i)) (Z.to_nat (left + j)))
             else black)
          <$> seqZ 0 (width config))
       <$> seqZ 0 (height config) |}.

(** The direct copy of the sub-rectangle [frame[y:y+h, x:x+w]] of a
    region that lies inside the frame. *)
Definition sub_rectangle (config : StreamConfig Z) (frame : ndarray) : ndarray :=
  {| ncols := Z.to_nat (width config);
     rows := (fun r => take (Z.to_nat (width config)) (drop (Z.to_nat (x config)) r))
             <$> take (Z.to_nat (height config)) (drop (Z.to_nat (y config)) (rows frame)) |}.

(** An all-black frame of [h] rows and [w] columns. *)
Definition all_black (h w : Z) : ndarray :=
  {| ncols := Z.to_nat w;
     rows := replicate (Z.to_nat h) (replicate (Z.to_nat w) black) |}.

End Reference.

(** ** The values [json.load] produces *)

(** A float is kept as the number it denotes: [m * 2^e], an infinity or
    a NaN.  Only its comparison with the integers is used. *)
Inductive pyfloat :=
  | Finite (m e : Z)
  | Infinite (negative : bool)
  | NaN.

#[warnings="-register-all"]
Inductive value :=
  | VNone
  | VBool (b : bool)
  | VInt (n : Z)
  | VFloat (f : pyfloat)
  | VStr (s : string)
  | VList (l : list value)
  | VDict (d : list (string * value)).

(** Lookup in a dictionary kept as an association list. *)
Fixpoint assoc (d : list (string * value)) (k : string) : option value :=
  match d with
  | [] => None
  | (k', v) :: rest => if decide (k' = k) then Some v else assoc rest k
  end.

(** [data.get(k, default)]: only a dictionary has the method. *)
Definition py_get (data : value) (k : string) (default : value) : result value :=
  match data with
  | VDict d => Ok (match assoc d k with Some v => v | None => default end)
  | _ => Raise AttributeError
  end.

(** The integer a float is equal to, when it is equal to one. *)
Definition float_integer (f : pyfloat) : option Z :=
  match f with
  | Finite m e =>
      if 0 <=? e then Some (m * 2 ^ e)
      else if m mod 2 ^ (- e) =? 0 then Some (m / 2 ^ (- e)) else None
  | _ => None
  end.

(** The integer an enumeration's lookup by value equates [v] with: the
    lookup goes by hash and equality, under which [True] is [1] and a
    float equal to an integer is that integer. *)
Definition enum_key (v : value) : option Z :=
  match v with
  | VInt n => Some n
  | VBool b => Some (if b then 1 else 0)
  | VFloat f => float_integer f
  | _ => None
  end.

(** [OverlayMode(v)] and [MovementMode(v)]: the member whose value is
    [v], or [ValueError]. *)
Definition OverlayMode_call (v : value) : result OverlayMode :=
  match enum_key v with
  | Some 0 => Ok NONE
  | Some 1 => Ok MINIMAL
  | Some 2 => Ok STANDARD
  | Some 3 => Ok FULL
  | Some 4 => Ok DEBUG
  | _ => Raise ValueError
  end.

Definition MovementMode_call (v : value) : result MovementMode :=
  match enum_key v with
  | Some 1 => Ok FINE
  | Some 5 => Ok NORMAL
  | Some 10 => Ok FAST
  | Some 20 => Ok TURBO
  | _ => Raise ValueError
  end.

(** ** State that survives an exception

    A computation over a mutable object of type [S]: it returns or
    raises, and either way leaves the object as mutated so far. *)

Definition Py (S A : Type) : Type := S -> result A * S.

Definition py_ret {S A} (a : A) : Py S A := fun s => (Ok a, s).

Definition py_bind {S A B} (m : Py S A) (k : A -> Py S B) : Py S B :=
  fun s =>
    match m s with
    | (Ok a, s) => k a s
    | (Raise e, s) => (Raise e, s)
    end.

(** A pure call that may raise. *)
Definition py_lift {S A} (r : result A) : Py S A := fun s => (r, s).

(** Reading an attribute of the object, and assigning one. *)
Definition py_read {S A} (f : S -> A) : Py S A := fun s => (Ok (f s), s).
Definition py_assign {S} (f : S -> S) : Py S unit := fun s => (Ok tt, f s).

Declare Scope py_scope.
Delimit Scope py_scope with py.
Notation "'do' a <- m ; k" := (py_bind m (fun a => k))
  (at level 10, a name, m at level 100, k at level 200) : py_scope.
Notation "m ;; k" := (py_bind m (fun _ => k))
  (at level 100, k at level 200, right associativity) : py_scope.

(** ** ConfigManager (lines 268-302) *)

(** A file is kept as what reading it gives: [Json doc] when
    [json.load] returns [doc], [NotJson] when opening or decoding it
    raises (a directory, an unreadable file, text that is not JSON). *)
Inductive file :=
  | NotJson
  | Json (doc : value).

Definition json_load (f : file) : result value :=
  match f with
  | NotJson => Raise JSONDecodeError
  | Json doc => Ok doc
  end.

(** A configuration as annotated, seen as the object the interpreter
    holds. *)
Definition as_object (c : StreamConfig Z) : StreamConfig value :=
  mkStreamConfig (VInt (x c)) (VInt (y c)) (VInt (width c)) (VInt (height c))
                 (overlay_mode c) (movement_mode c) (auto_save c) (config_file c).

(** What becomes of a file opened for writing. *)
Inductive write_outcome :=
  | Written
  | NotOpened
  | Truncated.

Module ConfigManager.

(** The dictionary [save] builds. *)
Definition record_of (config : StreamConfig Z) : value :=
  VDict [ ("x", VInt (x config));
          ("y", VInt (y config));
          ("width", VInt (width config));
          ("height", VInt (height config));
          ("overlay_mode", VInt (OverlayMode_value (overlay_mode config)));
          ("movement_mode", VInt (MovementMode_value (movement_mode config))) ].

(** [save]: whether the file can be written is the file system's
    answer.  When [open(config_file, 'w')] raises (a directory at the
    path, an empty path, a missing parent, no permission) nothing is
    written; when [json.dump] raises after the file was opened, the file
    is left with text that is not JSON; otherwise [json.dump] writes the
    dictionary, which [json.load] reads back as written: its keys are
    strings and its values integers. *)
Definition save (answer : write_outcome) (fs : gmap string file)
           (config : StreamConfig Z) : result unit * gmap string file :=
  match answer with
  | NotOpened => (Raise OSError, fs)
  | Truncated => (Raise OSError, <[config_file config := NotJson]> fs)
  | Written => (Ok tt, <[config_file config := Json (record_of config)]> fs)
  end.

(** The body of the [try] of [load]. *)
Definition load_body (f : file) : Py (StreamConfig value) unit :=
  (do data <- py_lift (json_load f);
   do d <- py_read x; do v <- py_lift (py_get data "x" d); py_assign (set_x v);;
   do d <- py_read y; do v <- py_lift (py_get data "y" d); py_assign (set_y v);;
   do d <- py_read width; do v <- py_lift (py_get data "width" d);
     py_assign (set_width v);;
   do d <- py_read height; do v <- py_lift (py_get data "height" d);
     py_assign (set_height v);;
   do v <- py_lift (py_get data "overlay_mode" (VInt 2));
     do m <- py_lift (OverlayMode_call v); py_assign (set_overlay_mode m);;
   do v <- py_lift (py_get data "movement_mode" (VInt 5));
     do m <- py_lift (MovementMode_call v); py_assign (set_movement_mode m))%py.

(** [load]: the returned boolean and the configuration object after
    the call. *)
Definition load (fs : gmap string file) (config : StreamConfig value)
  : bool * StreamConfig value :=
  match fs !! config_file config with
  | None => (false, config)
  | Some f =>
      match load_body f config with
      | (Ok _, config) => (true, config)
      | (Raise _, config) => (false, config)
      end
  end.

End ConfigManager.

(** ** OverlayRenderer (lines 113-217)

    The OpenCV drawing calls and the screen size are outside the
    repository: they are the operations of the interface [Drawing], and
    the renderer is written over any implementation of it.  A drawing
    call that paints its argument in place is a function to the painted
    frame. *)

Definition point : Type := Z * Z.

Class Drawing := {
  (** [pyautogui.size()]: the screen's width and height. *)
  screen_size : Z * Z;
  (** [cv2.rectangle(img, pt1, pt2, color, thickness)]. *)
  cv2_rectangle : ndarray -> point -> point -> pixel -> Z -> ndarray;
  (** [cv2.line(img, pt1, pt2, color, thickness)]. *)
  cv2_line : ndarray -> point -> point -> pixel -> Z -> ndarray;
  (** [cv2.circle(img, center, radius, color, thickness)]. *)
  cv2_circle : ndarray -> point -> Z -> pixel -> Z -> ndarray;
  (** [cv2.putText(img, text, org, fontFace, fontScale, color, thickness)]. *)
  cv2_putText : ndarray -> string -> point -> Z -> Q -> pixel -> Z -> ndarray;
  (** [cv2.addWeighted(src1, alpha, src2, beta, gamma)]. *)
  cv2_addWeighted : ndarray -> Q -> ndarray -> Q -> Q -> ndarray
}.

(** [str(n)] of an integer, as an f-string formats it. *)
Definition str (n : Z) : string := NilZero.string_of_int (Z.to_int n).

Definition FONT_HERSHEY_SIMPLEX : Z := 0.

Module OverlayRenderer.

(** The [colors] dictionary built by [__init__] (blue, green, red). *)
Definition border_normal : pixel := (0, 255, 0).
Definition border_edge : pixel := (0, 0, 255).
Definition grid : pixel := (128, 128, 128).
Definition crosshair : pixel := (0, 255, 255).
Definition corner : pixel := (255, 255, 0).
Definition text : pixel := (0, 255, 0).

Section Renderer.
Context `{Drawing}.
Variable config : StreamConfig Z.

Definition _draw_border (frame : ndarray) : ndarray :=
  let h := shape0 frame in
  let w := shape1 frame in
  let '(screen_w, screen_h) := screen_size in
  let at_edge :=
    (y config <=? 0) || (x config <=? 0)
    || (screen_h <=? y config + height config)
    || (screen_w <=? x config + width config) in
  let color := if at_edge then border_edge else border_normal in
  let frame := cv2_rectangle frame (0, 0) (w - 1, h - 1) color 2 in
  let corner_size := 20 in
  let corner_thick := 3 in
  foldl (fun frame '(x, y) =>
           let dx := if x =? 0 then 1 else -1 in
           let dy := if y =? 0 then 1 else -1 in
           let frame := cv2_line frame (x, y) (x + dx * corner_size, y)
                                 corner corner_thick in
           cv2_line frame (x, y) (x, y + dy * corner_size) corner corner_thick)
        frame [(0, 0); (w - 1, 0); (0, h - 1); (w - 1, h - 1)].

Definition _draw_info (frame : ndarray) : ndarray :=
  let overlay := frame in
  let overlay := cv2_rectangle overlay (5, 5) (250, 65) (0, 0, 0) (-1) in
  let frame := cv2_addWeighted frame (4 # 5) overlay (1 # 5) 0 in
  let font := FONT_HERSHEY_SIMPLEX in
  let frame :=
    cv2_putText frame
      ("Pos: (" ++ str (x config) ++ ", " ++ str (y config) ++ ")")%string
      (10, 25) font (1 # 2) text 1 in
  let frame :=
    cv2_putText frame
      ("Size: " ++ str (width config) ++ "x" ++ str (height config))%string
      (10, 45) font (1 # 2) text 1 in
  cv2_putText frame
    ("Mode: " ++ MovementMode_name (movement_mode config))%string
    (10, 60) font (2 # 5) text 1.

(** [int(w * i / 3)] is the quotient [w * i // 3]: both operands are
    non-negative and far below the range in which a float division
    loses an integer. *)
Definition _draw_guides (frame : ndarray) : ndarray :=
  let h := shape0 frame in
  let w := shape1 frame in
  let frame :=
    foldl (fun frame i =>
             let x := w * i / 3 in
             let y := h * i / 3 in
             let frame := cv2_line frame (x, 0) (x, h) grid 1 in
             cv2_line frame (0, y) (w, y) grid 1)
          frame [1; 2] in
  let cx := w / 2 in
  let cy := h / 2 in
  let frame := cv2_line frame (cx - 15, cy) (cx + 15, cy) crosshair 1 in
  let frame := cv2_line frame (cx, cy - 15) (cx, cy + 15) crosshair 1 in
  cv2_circle frame (cx, cy) 3 crosshair (-1).

Definition _draw_debug (frame : ndarray) : ndarray :=
  let w := shape1 frame in
  cv2_putText frame "DEBUG MODE" (w - 100, 20) FONT_HERSHEY_SIMPLEX (1 # 2)
              (255, 0, 255) 1.

Definition render (frame : ndarray) : ndarray :=
  if decide (overlay_mode config = NONE) then frame
  else
    let frame := frame in
    let frame :=
      if OverlayMode_value MINIMAL <=? OverlayMode_value (overlay_mode config)
      then _draw_border frame else frame in
    let frame :=
      if OverlayMode_value STANDARD <=? OverlayMode_value (overlay_mode config)
      then _draw_info frame else frame in
    let frame :=
      if OverlayMode_value FULL <=? OverlayMode_value (overlay_mode config)
      then _draw_guides frame else frame in
    let frame :=
      if decide (overlay_mode config = DEBUG)
      then _draw_debug frame else frame in
    frame.

(** The layer a mode adds to the modes below it. *)
Definition layer (m : OverlayMode) : ndarray -> ndarray :=
  match m with
  | NONE => fun frame => frame
  | MINIMAL => _draw_border
  | STANDARD => _draw_info
  | FULL => _draw_guides
  | DEBUG => _draw_debug
  end.

End Renderer.

(** The modes above [m1] up to [m2], in drawing order. *)
Definition modes_between (m1 m2 : OverlayMode) : list OverlayMode :=
  filter (fun m => OverlayMode_value m1 < OverlayMode_value m
                   ∧ OverlayMode_value m <= OverlayMode_value m2)
         [MINIMAL; STANDARD; FULL; DEBUG].

(** The layers of the modes [ms], drawn one after the other. *)
Definition draw_layers `{Drawing} (config : StreamConfig Z) (ms : list OverlayMode)
           (frame : ndarray) : ndarray :=
  foldl (fun frame m => layer config m frame) frame ms.

(** The pixel at [(i, j)] differs between two frames. *)
Definition changed (before after : ndarray) (i j : nat) : Prop :=
  pixel_at before i j ≠ pixel_at after i j.

End OverlayRenderer.

(** ** MovementController.auto_detect (lines 252-266)

    The edge detection and the contour search are OpenCV's: the
    interface [Vision] gives, for a frame, the bounding rectangles
    [(x, y, w, h)] of the contours found in it, in the order of the
    contours. *)

Definition rect : Type := Z * Z * Z * Z.

Class Vision := {
  (** [cv2.boundingRect] of each contour of
      [cv2.findContours(cv2.Canny(cv2.cvtColor(frame, ...), 50, 150), ...)]. *)
  bounding_rects : ndarray -> list rect
}.

(** The [for] loop of [auto_detect] over the rectangles left. *)
Fixpoint auto_detect_loop (config : StreamConfig Z) (rects : list rect)
  : bool * StreamConfig Z :=
  match rects with
  | [] => (false, config)
  | (x, y, w, h) :: rest =>
      if (300 <? w) && (w <? 400) && (200 <? h) && (h <? 300) then
        let config := set_x x config in
        let config := set_y y config in
        let config := set_width w config in
        let config := set_height h config in
        (true, config)
      else auto_detect_loop config rest
  end.

Definition auto_detect `{Vision} (config : StreamConfig Z) (frame : ndarray)
  : bool * StreamConfig Z :=
  auto_detect_loop config (bounding_rects frame).

(** A rectangle of the size [auto_detect] looks for. *)
Definition stream_sized (r : rect) : Prop :=
  let '(_, _, w, h) := r in 300 < w < 400 ∧ 200 < h < 300.

(** ** UnifiedStreamSystem (lines 304-462)

    The orchestrator's state is the shared configuration, the capture
    engine's queue, the file system, the image files written by
    [cv2.imwrite] and the frames handed to [cv2.imshow].  Console output
    is not part of the state.  What the outside world answers during one
    iteration is an [Env]:
    - the key [cv2.waitKey] returns, the screenshot (converted to BGR),
      the rectangle [cv2.selectROI] returns and the time stamp
      [time.strftime] formats;
    - [grab_raises]: the exception, if any, that taking and converting
      the screenshot, the contour search or the selection window raise
      (keys [a] and [c]);
    - [display_raises]: the exception, if any, that the drawing calls of
      [render] or [cv2.imshow] raise on the frame of this iteration (a
      frame without rows or columns makes OpenCV raise [cv2.error]);
    - [imwrite_answer]: what [cv2.imwrite] does with the snapshot: it
      raises, or returns whether it wrote the image;
    - [write_answer]: what becomes of the configuration file when [save]
      opens it;
    - [meanwhile]: what the calls of the capture thread make of the
      queue between the poll of the loop and the handling of the key. *)

Record Env := mkEnv {
  waitKey : Z;
  screenshot : ndarray;
  selectROI : rect;
  strftime : string;
  grab_raises : option exn;
  display_raises : option exn;
  imwrite_answer : result bool;
  write_answer : write_outcome;
  meanwhile : Queue ndarray -> Queue ndarray
}.

(** What the outside world answers when the loop is left: whether the
    capture thread ends, so that [join] returns (it does not when the
    thread is blocked in [get]); the exception, if any, that
    [cv2.destroyAllWindows] raises; and what becomes of the
    configuration file when the last [save] opens it. *)
Record Shutdown := mkShutdown {
  join_returns : bool;
  destroy_raises : option exn;
  final_write : write_outcome
}.

Record System := mkSystem {
  sys_config : StreamConfig Z;
  sys_queue : Queue ndarray;
  sys_fs : gmap string file;
  sys_images : list (string * ndarray);
  sys_shown : list ndarray
}.

Definition with_config (c : StreamConfig Z) (s : System) : System :=
  mkSystem c (sys_queue s) (sys_fs s) (sys_images s) (sys_shown s).
Definition with_queue (q : Queue ndarray) (s : System) : System :=
  mkSystem (sys_config s) q (sys_fs s) (sys_images s) (sys_shown s).
Definition with_fs (fs : gmap string file) (s : System) : System :=
  mkSystem (sys_config s) (sys_queue s) fs (sys_images s) (sys_shown s).

(** [cv2.imwrite(filename, frame)]: the call raises and writes nothing,
    or returns [False] and writes nothing, or returns [True]: then the
    image is kept, and the path holds a file that is not JSON. *)
Definition imwrite (answer : result bool) (filename : string) (frame : ndarray)
  : Py System bool :=
  fun s =>
    match answer with
    | Raise e => (Raise e, s)
    | Ok false => (Ok false, s)
    | Ok true =>
        (Ok true,
         mkSystem (sys_config s) (sys_queue s) (<[filename := NotJson]> (sys_fs s))
                  ((filename, frame) :: sys_images s) (sys_shown s))
    end.

(** [cv2.imshow('Glasses Stream', display)]. *)
Definition imshow (display : ndarray) (s : System) : System :=
  mkSystem (sys_config s) (sys_queue s) (sys_fs s) (sys_images s)
           (sys_shown s ++ [display]).

(** [ord(c)]. *)
Definition ord (c : ascii) : Z := Z.of_nat (nat_of_ascii c).

(** The position of [m] in a list of modes: [modes.index(m)]. *)
Fixpoint index_of (m : MovementMode) (modes : list MovementMode) : option nat :=
  match modes with
  | [] => None
  | m' :: rest => if decide (m' = m) then Some 0%nat else S <$> index_of m rest
  end.

(** A configuration object whose region attributes are integers, as a
    configuration as annotated. *)
Definition of_object (c : StreamConfig value) : option (StreamConfig Z) :=
  match x c, y c, width c, height c with
  | VInt vx, VInt vy, VInt vw, VInt vh =>
      Some (mkStreamConfig vx vy vw vh (overlay_mode c) (movement_mode c)
                           (auto_save c) (config_file c))
  | _, _, _, _ => None
  end.

Module UnifiedStreamSystem.

(** [__init__] on the file system [fs]: a fresh configuration, a fresh
    capture engine, and the saved configuration loaded over the
    defaults.  The result is [None] when [load] left something other
    than an integer in a region attribute, which the orchestrator's
    state does not hold. *)
Definition init (fs : gmap string file) : option System :=
  let config := default_config in
  let '(_, loaded) := ConfigManager.load fs (as_object config) in
  config ← of_object loaded;
  Some (mkSystem config StreamCapture.new_frame_queue fs [] []).

(** [_calibrate] (lines 449-462): the screenshot and the selection
    window come before any assignment. *)
Definition _calibrate (env : Env) : Py System unit :=
  fun s =>
    match grab_raises env with
    | Some e => (Raise e, s)
    | None =>
        let '(rx, ry, rw, rh) := selectROI env in
        if (0 <? rw) && (0 <? rh) then
          let c := sys_config s in
          let c := set_y ry (set_x rx c) in
          let c := set_height rh (set_width rw c) in
          (Ok tt, with_config c s)
        else (Ok tt, s)
    end.

(** [_handle_input] (lines 369-447): the returned boolean, or the
    exception raised, and the state after the call. *)
Definition _handle_input `{Vision} (env : Env) : Py System bool :=
  fun s =>
    let key := Z.land (waitKey env) 255 in
    let c := sys_config s in
    if key =? 255 then (Ok true, s)
    else if key =? 81 then
      (Ok true, with_config (MovementController.move c (-1) 0 true) s)
    else if key =? 83 then
      (Ok true, with_config (MovementController.move c 1 0 true) s)
    else if key =? 82 then
      (Ok true, with_config (MovementController.move c 0 (-1) true) s)
    else if key =? 84 then
      (Ok true, with_config (MovementController.move c 0 1 true) s)
    else if key =? ord "009" then
      let modes := MovementMode_members in
      match index_of (movement_mode c) modes with
      | None => (Raise ValueError, s)
      | Some i =>
          let idx := ((i + 1) mod length modes)%nat in
          (Ok true, with_config (set_movement_mode (nth idx modes (movement_mode c)) c) s)
      end
    else if (key =? ord "+") || (key =? ord "=") then
      (Ok true, with_config (MovementController.resize c 10 10) s)
    else if key =? ord "-" then
      (Ok true, with_config (MovementController.resize c (-10) (-10)) s)
    else if (ord "1" <=? key) && (key <=? ord "5") then
      match OverlayMode_call (VInt (key - ord "1")) with
      | Raise e => (Raise e, s)
      | Ok m => (Ok true, with_config (set_overlay_mode m c) s)
      end
    else if key =? ord "b" then
      if decide (overlay_mode c = NONE)
      then (Ok true, with_config (set_overlay_mode MINIMAL c) s)
      else (Ok true, with_config (set_overlay_mode NONE c) s)
    else if key =? ord "c" then
      match _calibrate env s with
      | (Raise e, s) => (Raise e, s)
      | (Ok _, s) => (Ok true, s)
      end
    else if key =? ord "a" then
      match grab_raises env with
      | Some e => (Raise e, s)
      | None =>
          let '(_, c) := auto_detect c (screenshot env) in
          (Ok true, with_config c s)
      end
    else if key =? ord "r" then
      (Ok true, with_config (MovementController.reset c) s)
    else if key =? ord "s" then
      match ConfigManager.save (write_answer env) (sys_fs s) c with
      | (Raise e, fs) => (Raise e, with_fs fs s)
      | (Ok _, fs) => (Ok true, with_fs fs s)
      end
    else if key =? ord " " then
      match StreamCapture.get_frame (sys_queue s) with
      | Raise e => (Raise e, s)
      | Ok (None, q) => (Ok true, with_queue q s)
      | Ok (Some frame, q) =>
          let filename := ("snapshot_" ++ strftime env ++ ".png")%string in
          match imwrite (imwrite_answer env) filename frame (with_queue q s) with
          | (Raise e, s) => (Raise e, s)
          | (Ok _, s) => (Ok true, s)
          end
      end
    else if (key =? ord "q") || (key =? 27) then (Ok false, s)
    else (Ok true, s).

(** What happens while [run_interactive] runs: the capture thread
    finishes a turn on a screenshot, or the main loop makes one
    iteration in the environment [env]. *)
Inductive event :=
  | Captured (frame : ndarray)
  | Iteration (env : Env).

(** A turn of the capture thread on the system's queue, with the
    configuration as it is at that moment.  A turn that could not put
    its frame leaves the queue as it was. *)
Definition capture `{Memory} (frame : ndarray) (s : System) : System :=
  match StreamCapture.capture_turn (sys_config s) (sys_queue s) frame with
  | Some q => with_queue q s
  | None => s
  end.

(** One iteration of the [while True] of [run_interactive] (lines
    345-359): [Ok true] when the loop goes on, [Ok false] at [break].
    The capture thread runs on between the poll of line 346 and the key
    handling of line 358. *)
Definition iteration `{Drawing} `{Vision} (env : Env) : Py System bool :=
  fun s =>
    match StreamCapture.get_frame (sys_queue s) with
    | Raise e => (Raise e, s)
    | Ok (None, q) => (Ok true, with_queue q s)
    | Ok (Some frame, q) =>
        let s := with_queue q s in
        match display_raises env with
        | Some e => (Raise e, s)
        | None =>
            let display := OverlayRenderer.render (sys_config s) frame in
            let s := imshow display s in
            let s := with_queue (meanwhile env (sys_queue s)) s in
            _handle_input env s
        end
    end.

(** How far [run_interactive] got on a list of events: the loop is
    still running, the call returned, the call raised, or the call is
    stuck in [join]. *)
Inductive outcome :=
  | Running
  | Exited
  | Crashed (e : exn)
  | Hung.

(** The [finally] of [run_interactive] (lines 361-367), entered with the
    exception [pending] when the loop raised: [capture.stop()] joins the
    capture thread, the windows are destroyed, and the configuration is
    saved when auto_save is set.  An exception raised here replaces the
    pending one. *)
Definition finally (shutdown : Shutdown) (pending : option exn) (s : System)
  : outcome * System :=
  let done := match pending with None => Exited | Some e => Crashed e end in
  if join_returns shutdown then
    match destroy_raises shutdown with
    | Some e => (Crashed e, s)
    | None =>
        if auto_save (sys_config s) then
          match ConfigManager.save (final_write shutdown) (sys_fs s) (sys_config s) with
          | (Raise e, fs) => (Crashed e, with_fs fs s)
          | (Ok _, fs) => (done, with_fs fs s)
          end
        else (done, s)
    end
  else (Hung, s).

(** [run_interactive] from the [try] of line 343 on, on the events
    [events]: the loop, and the [finally] once the loop is left.  The
    calls before the [try] (the capture thread is started, the window
    is created) have returned. *)
Fixpoint run_interactive `{Drawing} `{Vision} `{Memory} (shutdown : Shutdown)
         (events : list event) (s : System) : outcome * System :=
  match events with
  | [] => (Running, s)
  | Captured frame :: rest => run_interactive shutdown rest (capture frame s)
  | Iteration env :: rest =>
      match iteration env s with
      | (Ok true, s) => run_interactive shutdown rest s
      | (Ok false, s) => finally shutdown None s
      | (Raise e, s) => finally shutdown (Some e) s
      end
  end.

End UnifiedStreamSystem.

(** ** The capture thread and the main loop on the queue, call by call

    Each call of a queue method is atomic; between two calls of the
    capture thread the main loop may poll.  The capture thread is at one
    of three places of lines 80-82. *)

Inductive producer :=
  | AtFull (stream : ndarray)
  | AtGet (stream : ndarray)
  | AtPut (stream : ndarray)
  | AtTop.

Inductive call :=
  | Extracted (stream : ndarray)
  | Produce
  | Poll.

Record handoff := mkHandoff {
  at_line : producer;
  queue : Queue ndarray;
  polled : list (option ndarray)
}.

(** One call: [None] when the thread that makes it is blocked in it, or
    is not at that call. *)
Definition handoff_step (c : call) (s : handoff) : option handoff :=
  match c, at_line s with
  | Extracted stream, AtTop => Some (mkHandoff (AtFull stream) (queue s) (polled s))
  | Extracted _, _ => None
  | Produce, AtFull stream =>
      if q_full (queue s) then Some (mkHandoff (AtGet stream) (queue s) (polled s))
      else Some (mkHandoff (AtPut stream) (queue s) (polled s))
  | Produce, AtGet stream =>
      '(_, q) ← q_get (queue s); Some (mkHandoff (AtPut stream) q (polled s))
  | Produce, AtPut stream =>
      q ← q_put (queue s) stream; Some (mkHandoff AtTop q (polled s))
  | Produce, AtTop => None
  | Poll, _ =>
      match StreamCapture.get_frame (queue s) with
      | Ok (f, q) => Some (mkHandoff (at_line s) q (polled s ++ [f]))
      | Raise _ => None
      end
  end.

Fixpoint handoff_run (calls : list call) (s : handoff) : option handoff :=
  match calls with
  | [] => Some s
  | c :: rest => s ← handoff_step c s; handoff_run rest s
  end.

Definition handoff_start : handoff :=
  mkHandoff AtTop StreamCapture.new_frame_queue [].

(** The streams the capture thread has extracted in a list of calls,
    the stream it holds at a place of its loop, and the frames of a
    hand-off in the order they were extracted: those polled, those in
    the queue, the one in the capture thread's hand. *)
Definition streams_of (calls : list call) : list ndarray :=
  omap (fun c => match c with Extracted stream => Some stream | _ => None end) calls.

Definition in_hand (p : producer) : list ndarray :=
  match p with
  | AtFull stream | AtGet stream | AtPut stream => [stream]
  | AtTop => []
  end.

Definition frames_of (s : handoff) : list ndarray :=
  omap id (polled s) ++ items (queue s) ++ in_hand (at_line s).

(** A hand-off whose queue is the capture engine's and holds no more
    than it may, with room for the frame about to be put. *)
Definition handoff_ok (s : handoff) : Prop :=
  maxsize (queue s) = 30
  ∧ (length (items (queue s)) ≤ 30)%nat
  ∧ (∀ stream, at_line s = AtPut stream → (length (items (queue s)) < 30)%nat).

(** Thirty turns of the capture thread, the start of one more up to the
    answer of [full()], and thirty polls of the main loop. *)
Definition drained_after_full (stream : ndarray) : list call :=
  concat (replicate 30 [Extracted stream; Produce; Produce])
  ++ [Extracted stream; Produce]
  ++ replicate 30 Poll.


(** Two frames of the same extents, and an implementation of
    [Drawing] whose every operation returns a frame of the extents of
    the frame it is given, as OpenCV's do (for [cv2.addWeighted], of its
    two sources of equal extents). *)
Definition same_shape (a b : ndarray) : Prop :=
  nrows a = nrows b ∧ ncols a = ncols b.

Definition shape_preserving (D : Drawing) : Prop :=
  (∀ img p q c t, same_shape (cv2_rectangle img p q c t) img)
  ∧ (∀ img p q c t, same_shape (cv2_line img p q c t) img)
  ∧ (∀ img p r c t, same_shape (cv2_circle img p r c t) img)
  ∧ (∀ img txt p f sc c t, same_shape (cv2_putText img txt p f sc c t) img)
  ∧ (∀ a wa b wb g, same_shape b a → same_shape (cv2_addWeighted a wa b wb g) a).

(** What the outside world raises during a call of [_handle_input]:
    [OSError] from [save] on the key [s], what [cv2.imwrite] raises on
    the space bar, what the screenshot and the OpenCV calls raise on the
    keys [a] and [c]. *)
Definition input_raises (env : Env) (e : exn) : Prop :=
  let key := Z.land (waitKey env) 255 in
  (key = ord "s" ∧ write_answer env ≠ Written ∧ e = OSError)
  ∨ (key = ord " " ∧ imwrite_answer env = Raise e)
  ∨ ((key = ord "a" ∨ key = ord "c") ∧ grab_raises env = Some e).

(** What it raises during an iteration of the loop, and when the loop
    is left. *)
Definition iteration_raises (env : Env) (e : exn) : Prop :=
  display_raises env = Some e ∨ input_raises env e.

Definition shutdown_raises (shutdown : Shutdown) (e : exn) : Prop :=
  destroy_raises shutdown = Some e
  ∨ (final_write shutdown ≠ Written ∧ e = OSError).

(** ** Concrete inputs used by the examples *)

Definition px (n : Z) : pixel := (n, n, n).

(** A frame of 4 rows and 4 columns whose pixels are numbered 1 to 16. *)
Definition frame44 : ndarray :=
  mk_ndarray 4 [ [px 1; px 2; px 3; px 4];
                 [px 5; px 6; px 7; px 8];
                 [px 9; px 10; px 11; px 12];
                 [px 13; px 14; px 15; px 16] ].

(** A black screenshot of a 1920 x 1080 screen. *)
Definition screen_1080p : ndarray :=
  mk_ndarray 1920 (replicate 1080 (replicate 1920 black)).

(** The default configuration with its region replaced. *)
Definition region (x y w h : Z) : StreamConfig Z :=
  mkStreamConfig x y w h STANDARD NORMAL true "stream_config.json".

(** The rows [src] written into the top-left corner of a black buffer
    of [h] rows and [w] columns, for rows of [src] of length [s1]. *)
Definition pad_rows (src : list (list pixel)) (s1 h w : nat) : list (list pixel) :=
  ((fun v => v ++ replicate (w - s1) black) <$> src)
  ++ replicate (h - length src) (replicate w black).

(** The last [n] elements of a list. *)
Definition last_n {A} (n : nat) (l : list A) : list A := drop (length l - n) l.

(** A configuration whose two modes are away from their defaults. *)
Definition debug_turbo_config : StreamConfig Z :=
  mkStreamConfig 12 34 560 78 DEBUG TURBO false "stream_config.json".

(** A file system whose configuration file holds the empty record [{}]. *)
Definition empty_record_fs : gmap string file :=
  {["stream_config.json" := Json (VDict [])]}.

(** One whose configuration file holds [{"x": 1, "overlay_mode": 9}]:
    a record whose overlay mode names no member. *)
Definition bad_mode_fs : gmap string file :=
  {["stream_config.json" := Json (VDict [("x", VInt 1); ("overlay_mode", VInt 9)])]}.

(** One whose configuration file is not JSON. *)
Definition corrupt_fs : gmap string file :=
  {["stream_config.json" := NotJson]}.

(** Three growths by 10 and a shrink that passes the floor of the width. *)
Definition shrinking_run : list (Z * Z) :=
  [(10, 10); (10, 10); (10, 10); (-400, -100)].

(** A coarse implementation of [Drawing] that paints the bounding box of
    every shape and blends by keeping the second image: enough to run
    the renderer on small frames. *)
Definition paint_box (img : ndarray) (p q : point) (c : pixel) : ndarray :=
  {| ncols := ncols img;
     rows :=
       imap (fun i row =>
               imap (fun j v =>
                       if (Z.min p.2 q.2 <=? Z.of_nat i) && (Z.of_nat i <=? Z.max p.2 q.2)
                          && (Z.min p.1 q.1 <=? Z.of_nat j) && (Z.of_nat j <=? Z.max p.1 q.1)
                       then c else v) row)
            (rows img) |}.

Definition box_drawing : Drawing :=
  {| screen_size := (1920, 1080);
     cv2_rectangle img p q c _ := paint_box img p q c;
     cv2_line img p q c _ := paint_box img p q c;
     cv2_circle img p r c _ := paint_box img (p.1 - r, p.2 - r) (p.1 + r, p.2 + r) c;
     cv2_putText img _ org _ _ c _ := paint_box img org org c;
     cv2_addWeighted _ _ img _ _ := img |}.

(** A contour search that finds a small icon and two rectangles of the
    size of the stream, whatever the frame. *)
Definition icon_then_stream : Vision :=
  {| bounding_rects _ := [(10, 10, 32, 32); (52, 341, 338, 229); (700, 90, 350, 250)] |}.

(** An allocator that gives every buffer asked for. *)
Definition ample_memory : Memory := {| np_zeros_raises _ _ := None |}.

(** One that has no room for a million pixels. *)
Definition scarce_memory : Memory :=
  {| np_zeros_raises h w := if 1000000 <=? h * w then Some MemoryError else None |}.

(** What the outside world answers when the key with code [key] is
    down: the screenshot, the selection and the time stamp are fixed,
    nothing raises, files are written and the capture thread leaves the
    queue alone. *)
Definition pressed (key : Z) : Env :=
  mkEnv key frame44 (5, 5, 10, 10) "19700101_000000" None None (Ok true) Written id.

(** The same with a display that raises [cv2.error]. *)
Definition pressed_blind (key : Z) : Env :=
  mkEnv key frame44 (5, 5, 10, 10) "19700101_000000" None (Some Cv2Error) (Ok true)
        Written id.

(** The same with a capture thread that puts the frame [frame] in the
    meantime. *)
Definition pressed_while_putting (key : Z) (frame : ndarray) : Env :=
  mkEnv key frame44 (5, 5, 10, 10) "19700101_000000" None None (Ok true) Written
        (fun q => mkQueue (maxsize q) (items q ++ [frame])).

(** A shutdown in which the capture thread ends and the file is
    written. *)
Definition clean_shutdown : Shutdown := mkShutdown true None Written.

(** A system with the default configuration, an empty queue and no
    file. *)
Definition fresh_system : System :=
  mkSystem default_config StreamCapture.new_frame_queue ∅ [] [].

(** A session on a 4 by 4 screen whose saved region is 2 by 2 at
    (1, 1): a frame is captured, the right arrow is pressed, another
    frame is captured, and [q] is pressed. *)
Definition demo_fs : gmap string file :=
  (ConfigManager.save Written ∅ (region 1 1 2 2)).2.

Definition demo_start : System :=
  mkSystem (region 1 1 2 2) StreamCapture.new_frame_queue demo_fs [] [].

Definition demo_events : list UnifiedStreamSystem.event :=
  [ UnifiedStreamSystem.Captured frame44;
    UnifiedStreamSystem.Iteration (pressed 83);
    UnifiedStreamSystem.Captured frame44;
    UnifiedStreamSystem.Iteration (pressed 113) ].

(** The same session with a display that raises while the second frame
    is shown. *)
Definition blind_events : list UnifiedStreamSystem.event :=
  [ UnifiedStreamSystem.Captured frame44;
    UnifiedStreamSystem.Iteration (pressed 83);
    UnifiedStreamSystem.Captured frame44;
    UnifiedStreamSystem.Iteration (pressed_blind 113) ].

(** One turn of the capture thread, then a poll. *)
Definition demo_calls : list call := [Extracted frame44; Produce; Produce; Poll].

(** * Properties *)

(** ** Movement *)

Section Movement.
Import MovementController.

Lemma resize_width (c : StreamConfig Z) (dw dh : Z) :
  width (resize c dw dh) = Z.max 50 (width c + dw).
Proof. reflexivity. Qed.

Lemma resize_height (c : StreamConfig Z) (dw dh : Z) :
  height (resize c dw dh) = Z.max 50 (height c + dh).
Proof. reflexivity. Qed.

Lemma resize_all_snoc (c : StreamConfig Z) (deltas : list (Z * Z)) (d : Z * Z) :
  resize_all c (deltas ++ [d]) = resize (resize_all c deltas) d.1 d.2.
Proof. unfold resize_all. by rewrite foldl_snoc. Qed.

(** After at least one call the floor holds whatever the start was. *)
Lemma resize_all_floor_nonempty (c : StreamConfig Z) (deltas : list (Z * Z)) :
  deltas ≠ [] →
  50 <= width (resize_all c deltas) ∧ 50 <= height (resize_all c deltas).
Proof.
  destruct deltas as [|d deltas _] using rev_ind; [done|].
  rewrite resize_all_snoc, resize_width, resize_height. lia.
Qed.

(** C7: from a configuration with width and height at least 50, any run
  of [resize] calls leaves both at least 50; one call sets the width
  to [max 50 (width + dw)] and the height to [max 50 (height + dh)],
  each from its own delta alone, in pixels, whatever the speed tier,
  and changes no other field. *)
Theorem resize_floor_50 (c : StreamConfig Z) (deltas : list (Z * Z)) :
50 <= width c → 50 <= height c →
(50 <= width (resize_all c deltas) ∧ 50 <= height (resize_all c deltas))
∧ (∀ dw dh : Z,
     resize c dw dh =
     mkStreamConfig (x c) (y c) (Z.max 50 (width c + dw)) (Z.max 50 (height c + dh))
                    (overlay_mode c) (movement_mode c) (auto_save c) (config_file c)).
Proof.
intros Hw Hh. split; [|done].
destruct deltas as [|d deltas].
- done.
- by apply resize_all_floor_nonempty.
Qed.

Lemma resize_floor_50_witness :
  (50 <= width default_config ∧ 50 <= height default_config)
  ∧ (50 <= width (resize_all default_config shrinking_run)
     ∧ 50 <= height (resize_all default_config shrinking_run)).
Proof.
  assert (50 <= width default_config) as Hw by (vm_compute; discriminate).
  assert (50 <= height default_config) as Hh by (vm_compute; discriminate).
  split; [done|].
  exact (proj1 (resize_floor_50 default_config shrinking_run Hw Hh)).
Defined.

(** The run of the specification's end-to-end example: three growths by
    10, then a shrink past the floor, which stops the width at 50 while
    the height keeps its own value. *)
Example resize_spec_example :
  width (resize_all default_config shrinking_run) = 50
  ∧ height (resize_all default_config shrinking_run) = 160.
Proof. split; reflexivity. Qed.

(** C8: a relative [move] adds [dx * m] to [x] and [dy * m] to [y],
  where [m] is the multiplier of the active speed tier (1, 5, 10, 20),
  without clamping and without touching another field; under Turbo the
  displacement is 20 times the one under Fine; and from x = 40,
  y = 330 one step right under Normal gives x = 45, y = 330. *)
Theorem move_scales_by_speed_tier :
(∀ (c : StreamConfig Z) (dx dy : Z),
   move c dx dy true =
   mkStreamConfig (x c + dx * movement_speeds (movement_mode c))
                  (y c + dy * movement_speeds (movement_mode c))
                  (width c) (height c) (overlay_mode c) (movement_mode c)
                  (auto_save c) (config_file c))
∧ (movement_speeds FINE = 1 ∧ movement_speeds NORMAL = 5
   ∧ movement_speeds FAST = 10 ∧ movement_speeds TURBO = 20)
∧ (∀ (c : StreamConfig Z) (dx dy : Z),
     let fine := move (set_movement_mode FINE c) dx dy true in
     let turbo := move (set_movement_mode TURBO c) dx dy true in
     x turbo - x c = 20 * (x fine - x c) ∧ y turbo - y c = 20 * (y fine - y c))
∧ (let c := move (region 40 330 340 230) 1 0 true in x c = 45 ∧ y c = 330).
Proof.
split; [done|]. split; [done|]. split; [|done].
intros c dx dy. simpl. lia.
Qed.

(** C10: [reset] sets x, y, width and height to 40, 330, 340 and 230 and
  leaves overlay_mode, movement_mode, auto_save and config_file as
  they were. *)
Theorem reset_sets_region_only (c : StreamConfig Z) :
reset c =
mkStreamConfig 40 330 340 230
               (overlay_mode c) (movement_mode c) (auto_save c) (config_file c).
Proof. reflexivity. Qed.

End Movement.

(** ** The frame buffer *)

Section FrameBuffer.
Import StreamCapture.

Lemma tail_drop {A} (k : nat) (l : list A) : tail (drop k l) = drop (S k) l.
Proof.
  apply list_eq. intros i. rewrite lookup_tail, !lookup_drop. f_equal. lia.
Qed.

Lemma last_n_snoc_full {A} (n : nat) (l : list A) (a : A) :
  (0 < n)%nat → length (last_n n l) = n →
  tail (last_n n l) ++ [a] = last_n n (l ++ [a]).
Proof.
  unfold last_n. intros Hn Hlen. rewrite length_drop in Hlen.
  rewrite length_app. simpl.
  replace (length l + 1 - n)%nat with (S (length l - n)) by lia.
  rewrite drop_app_le by lia.
  by rewrite tail_drop.
Qed.

Lemma last_n_snoc_room {A} (n : nat) (l : list A) (a : A) :
  (length l < n)%nat → last_n n l ++ [a] = last_n n (l ++ [a]).
Proof.
  unfold last_n. intros Hlen. rewrite length_app. simpl.
  replace (length l - n)%nat with 0%nat by lia.
  replace (length l + 1 - n)%nat with 0%nat by lia.
  done.
Qed.

Lemma length_last_n {A} (n : nat) (l : list A) :
  length (last_n n l) = Nat.min n (length l).
Proof. unfold last_n. rewrite length_drop. lia. Qed.

(** [publish] on a queue of capacity [n] that holds the last [n] of the
    frames published so far. *)
Lemma publish_last_n (n : nat) (done : list ndarray) (f : ndarray) :
  (0 < n)%nat →
  publish (mkQueue (Z.of_nat n) (last_n n done)) f
  = Some (mkQueue (Z.of_nat n) (last_n n (done ++ [f]))).
Proof.
  intros Hn. unfold publish, q_full, qsize. simpl.
  pose proof (length_last_n n done) as Hlen.
  destruct (decide (n ≤ length done)%nat) as [Hfull|Hroom].
  - assert (length (last_n n done) = n) as Hn' by lia.
    rewrite Hn'.
    replace (0 <? Z.of_nat n) with true by (symmetry; apply Z.ltb_lt; lia).
    rewrite Z.leb_refl. simpl.
    unfold q_get. simpl.
    destruct (last_n n done) as [|old rest] eqn:Hitems; [simpl in Hn'; lia|].
    simpl. unfold q_put, q_full, qsize. simpl.
    simpl in Hn'.
    replace (Z.of_nat n <=? Z.of_nat (length rest)) with false
      by (symmetry; apply Z.leb_gt; lia).
    rewrite andb_false_r.
    f_equal. f_equal.
    rewrite <- (last_n_snoc_full n done f) by (rewrite ?Hitems; simpl; lia).
    by rewrite Hitems.
  - assert (length (last_n n done) < n)%nat as Hlt by lia.
    replace (Z.of_nat n <=? Z.of_nat (length (last_n n done))) with false
      by (symmetry; apply Z.leb_gt; lia).
    rewrite andb_false_r. simpl.
    unfold q_put, q_full, qsize. simpl.
    replace (Z.of_nat n <=? Z.of_nat (length (last_n n done))) with false
      by (symmetry; apply Z.leb_gt; lia).
    rewrite andb_false_r.
    f_equal. f_equal. apply last_n_snoc_room. lia.
Qed.

Lemma publish_all_last_n (n : nat) (streams done : list ndarray) :
  (0 < n)%nat →
  publish_all (mkQueue (Z.of_nat n) (last_n n done)) streams
  = Some (mkQueue (Z.of_nat n) (last_n n (done ++ streams))).
Proof.
  intros Hn. revert done.
  induction streams as [|s streams IH]; intros done; simpl.
  - by rewrite app_nil_r.
  - rewrite publish_last_n by done. simpl.
    rewrite IH. by rewrite <- app_assoc.
Qed.

(** Polling a queue once per frame it holds returns the frames oldest
    first and empties it. *)
Lemma poll_drains (cap : Z) (fs : list ndarray) :
  poll (length fs) (mkQueue cap fs) = Ok (Some <$> fs, mkQueue cap []).
Proof.
  induction fs as [|f fs IH]; simpl; [done|].
  unfold get_frame, q_get_nowait. simpl. by rewrite IH.
Qed.

Lemma poll_app (n m : nat) (q q1 q2 : Queue ndarray) (r1 r2 : list (option ndarray)) :
  poll n q = Ok (r1, q1) → poll m q1 = Ok (r2, q2) →
  poll (n + m) q = Ok (r1 ++ r2, q2).
Proof.
  revert q r1. induction n as [|n IH]; intros q r1 H1 H2; simpl in *.
  - by inversion H1; subst.
  - destruct (get_frame q) as [[f q']|e]; [|done].
    destruct (poll n q') as [[fs q'']|e] eqn:Hp; [|done].
    inversion H1; subst.
    by rewrite (IH q' fs Hp H2).
Qed.

(** C3: the frame queue has capacity 30; publishing into a full queue
    drops exactly its oldest frame and appends the new one; publishing
    any list of frames into the empty queue leaves its last 30 frames
    in order, so 31 frames leave all but the first, and polling returns
    them oldest first; [get_frame] on an empty queue returns [None] at
    once and leaves the queue empty. *)
Theorem frame_queue_drops_oldest :
  maxsize new_frame_queue = 30
  ∧ items new_frame_queue = []
  ∧ (∀ (old : ndarray) (rest : list ndarray) (f : ndarray),
       length (old :: rest) = 30%nat →
       publish (mkQueue 30 (old :: rest)) f = Some (mkQueue 30 (rest ++ [f])))
  ∧ (∀ streams : list ndarray,
       publish_all new_frame_queue streams = Some (mkQueue 30 (last_n 30 streams)))
  ∧ (∀ (first : ndarray) (recent : list ndarray),
       length recent = 30%nat →
       publish_all new_frame_queue (first :: recent) = Some (mkQueue 30 recent)
       ∧ poll 31 (mkQueue 30 recent) = Ok ((Some <$> recent) ++ [None], mkQueue 30 []))
  ∧ (∀ cap : Z, get_frame (mkQueue cap []) = Ok (None, mkQueue cap [])).
Proof.
  split; [done|]. split; [done|]. split; [|split; [|split]].
  - intros old rest f Hlen.
    assert (length rest = 29%nat) as Hrest by (simpl in Hlen; lia).
    unfold publish, q_full, qsize. cbn [items maxsize]. rewrite Hlen.
    change (30 <=? Z.of_nat 30) with true. cbn.
    unfold q_put, q_full, qsize. cbn [items maxsize]. by rewrite Hrest.
  - intros streams.
    exact (publish_all_last_n 30 streams [] ltac:(lia)).
  - intros first recent Hlen. split.
    + pose proof (publish_all_last_n 30 (first :: recent) [] ltac:(lia)) as Hp.
      unfold last_n in Hp at 2. simpl in Hp. rewrite Hlen in Hp. exact Hp.
    + change 31%nat with (30 + 1)%nat. rewrite <- Hlen.
      eapply poll_app; [apply poll_drains|done].
  - done.
Qed.

End FrameBuffer.

(** ** Persistence *)

Section Persistence.
Import ConfigManager.



Lemma file_dict_or_not (f : file) :
  (∃ d, f = Json (VDict d)) ∨ (∀ d, f ≠ Json (VDict d)).
Proof. destruct f as [|[]]; eauto. Qed.

(** What the body of [load] does on a record that is a dictionary. *)
Lemma load_body_dict (d : list (string * value)) (config : StreamConfig value) :
  load_body (Json (VDict d)) config =
  let c4 :=
    mkStreamConfig (default (x config) (assoc d "x")) (default (y config) (assoc d "y"))
                   (default (width config) (assoc d "width"))
                   (default (height config) (assoc d "height"))
                   (overlay_mode config) (movement_mode config)
                   (auto_save config) (config_file config) in
  match OverlayMode_call (default (VInt 2) (assoc d "overlay_mode")) with
  | Raise e => (Raise e, c4)
  | Ok om =>
      match MovementMode_call (default (VInt 5) (assoc d "movement_mode")) with
      | Raise e => (Raise e, set_overlay_mode om c4)
      | Ok mm => (Ok tt, set_movement_mode mm (set_overlay_mode om c4))
      end
  end.
Proof.
  unfold load_body, py_bind, py_lift, py_read, py_assign, py_get, json_load. simpl.
  destruct (assoc d "x"), (assoc d "y"), (assoc d "width"), (assoc d "height");
    simpl;
    (destruct (OverlayMode_call _); [|done]);
    (destruct (MovementMode_call _); done).
Qed.

(** On anything else the body raises before it assigns. *)
Lemma load_body_not_dict (f : file) (config : StreamConfig value) :
  (∀ d, f ≠ Json (VDict d)) →
  ∃ e, load_body f config = (Raise e, config).
Proof.
  intros Hf. unfold load_body, py_bind, py_lift, py_read, py_assign.
  destruct f as [|doc]; simpl; [by eexists|].
  destruct doc; simpl; try by eexists.
  by destruct (Hf d).
Qed.

(** C4, as amended: when [load] returns [True] the file holds a
    dictionary; x, y, width and height take the record's value when the
    record has the field and keep their prior value when it has not;
    overlay_mode and movement_mode are always assigned, the member named
    by the record's value when the field is present and STANDARD (2) and
    NORMAL (5) when it is absent, whatever they were before; auto_save
    and config_file are unchanged. *)
Theorem load_success_fields (fs : gmap string file) (config config' : StreamConfig value) :
  load fs config = (true, config') →
  ∃ d : list (string * value),
    fs !! config_file config = Some (Json (VDict d))
    ∧ x config' = default (x config) (assoc d "x")
    ∧ y config' = default (y config) (assoc d "y")
    ∧ width config' = default (width config) (assoc d "width")
    ∧ height config' = default (height config) (assoc d "height")
    ∧ OverlayMode_call (default (VInt 2) (assoc d "overlay_mode")) = Ok (overlay_mode config')
    ∧ MovementMode_call (default (VInt 5) (assoc d "movement_mode"))
      = Ok (movement_mode config')
    ∧ (assoc d "overlay_mode" = None → overlay_mode config' = STANDARD)
    ∧ (assoc d "movement_mode" = None → movement_mode config' = NORMAL)
    ∧ auto_save config' = auto_save config
    ∧ config_file config' = config_file config.
Proof.
  unfold load. intros Hload.
  destruct (fs !! config_file config) as [f|] eqn:Hfile; [|by inversion Hload].
  destruct (file_dict_or_not f) as [[d ->]|Hnot].
  - exists d. split; [done|].
    rewrite load_body_dict in Hload. simpl in Hload.
    destruct (OverlayMode_call _) as [om|] eqn:Hom; [|by inversion Hload].
    destruct (MovementMode_call _) as [mm|] eqn:Hmm; [|by inversion Hload].
    inversion Hload; subst config'; simpl.
    repeat split; try done.
    + intros Habs. rewrite Habs in Hom. by inversion Hom.
    + intros Habs. rewrite Habs in Hmm. by inversion Hmm.
  - destruct (load_body_not_dict f config Hnot) as [e He].
    rewrite He in Hload. by inversion Hload.
Qed.

Lemma load_success_fields_witness :
  load empty_record_fs (as_object debug_turbo_config)
  = (true, as_object (set_movement_mode NORMAL (set_overlay_mode STANDARD debug_turbo_config)))
  ∧ ∃ d : list (string * value),
      empty_record_fs !! config_file debug_turbo_config = Some (Json (VDict d))
      ∧ VInt 12 = default (VInt 12) (assoc d "x")
      ∧ OverlayMode_call (default (VInt 2) (assoc d "overlay_mode")) = Ok STANDARD.
Proof.
  assert (load empty_record_fs (as_object debug_turbo_config)
          = (true, as_object (set_movement_mode NORMAL
                                (set_overlay_mode STANDARD debug_turbo_config))))
    as Hload by (vm_compute; reflexivity).
  split; [exact Hload|].
  destruct (load_success_fields _ _ _ Hload) as (d & Hfile & Hx & _ & _ & _ & Hom & _).
  exists d. split; [exact Hfile|]. split; [exact Hx|exact Hom].
Defined.

(** C4, as stated, fails: the record [{}] has no overlay_mode and no
    movement_mode, [load] returns [True], and the two modes, DEBUG and
    TURBO before the call, are STANDARD and NORMAL after it. *)
Lemma load_absent_modes_reset :
  load empty_record_fs (as_object debug_turbo_config)
  = (true, as_object (set_movement_mode NORMAL (set_overlay_mode STANDARD debug_turbo_config)))
  ∧ empty_record_fs !! config_file debug_turbo_config = Some (Json (VDict []))
  ∧ assoc [] "overlay_mode" = None
  ∧ assoc [] "movement_mode" = None
  ∧ overlay_mode (load empty_record_fs (as_object debug_turbo_config)).2
    ≠ overlay_mode (as_object debug_turbo_config)
  ∧ movement_mode (load empty_record_fs (as_object debug_turbo_config)).2
    ≠ movement_mode (as_object debug_turbo_config).
Proof. vm_compute. repeat split; done. Qed.

(** C5 fails on a record that is JSON but names no overlay mode:
    [load] returns [False] after it has already overwritten x. *)
Theorem load_bad_mode_overwrites_x :
  load bad_mode_fs (as_object default_config)
  = (false, as_object (set_x 1 default_config))
  ∧ x (as_object (set_x 1 default_config)) ≠ x (as_object default_config).
Proof. vm_compute. split; done. Qed.

(** Where C5 holds: a missing file, a file that is not JSON, and JSON
    that is not a dictionary make [load] return [False] and leave the
    configuration as it was. *)
Theorem load_missing_or_undecodable (fs : gmap string file) (config : StreamConfig value) :
  (fs !! config_file config = None
   ∨ ∃ f, fs !! config_file config = Some f ∧ ∀ d, f ≠ Json (VDict d)) →
  load fs config = (false, config).
Proof.
  unfold load. intros [->|(f & -> & Hf)]; [done|].
  destruct (load_body_not_dict f config Hf) as [e ->]. done.
Qed.

Lemma load_missing_or_undecodable_witness :
  load corrupt_fs (as_object debug_turbo_config) = (false, as_object debug_turbo_config).
Proof.
  apply load_missing_or_undecodable. right. exists NotJson.
  split; [vm_compute; reflexivity|done].
Defined.




(** A [save] on a path that cannot be opened raises and leaves a saved
    record alone; one that fails while writing leaves a file that [load]
    cannot read. *)
Example save_not_opened :
  save NotOpened demo_fs debug_turbo_config = (Raise OSError, demo_fs)
  ∧ (load (save Truncated demo_fs debug_turbo_config).2 (as_object default_config)).1
    = false.
Proof. split; vm_compute; reflexivity. Qed.

End Persistence.

(** ** Overlay rendering *)

Section Overlay.
Import OverlayRenderer.
Context `{Drawing}.

(** No drawing routine reads the overlay mode. *)
Lemma layer_ignores_overlay_mode (config : StreamConfig Z) (m k : OverlayMode) :
  layer (set_overlay_mode m config) k = layer config k.
Proof. by destruct k. Qed.

Lemma draw_layers_ignores_overlay_mode (config : StreamConfig Z) (m : OverlayMode)
      (ms : list OverlayMode) (frame : ndarray) :
  draw_layers (set_overlay_mode m config) ms frame = draw_layers config ms frame.
Proof.
  unfold draw_layers. revert frame.
  induction ms as [|k ms IH]; intros frame; simpl; [done|].
  by rewrite layer_ignores_overlay_mode, IH.
Qed.

Lemma draw_layers_app (config : StreamConfig Z) (ms1 ms2 : list OverlayMode)
      (frame : ndarray) :
  draw_layers config (ms1 ++ ms2) frame
  = draw_layers config ms2 (draw_layers config ms1 frame).
Proof. unfold draw_layers. by rewrite foldl_app. Qed.

(** [render] draws the layers of the modes up to the configured one. *)
Lemma render_as_layers (config : StreamConfig Z) (frame : ndarray) :
  render config frame = draw_layers config (modes_between NONE (overlay_mode config)) frame.
Proof.
  unfold render. destruct (overlay_mode config); reflexivity.
Qed.

Lemma modes_between_split (m1 m2 : OverlayMode) :
  OverlayMode_value m1 < OverlayMode_value m2 →
  modes_between NONE m2 = modes_between NONE m1 ++ modes_between m1 m2.
Proof. destruct m1, m2; intros Hlt; try reflexivity; by vm_compute in Hlt. Qed.

Lemma length_modes_between (m1 m2 : OverlayMode) :
  OverlayMode_value m1 < OverlayMode_value m2 →
  length (modes_between m1 m2) = Z.to_nat (OverlayMode_value m2 - OverlayMode_value m1).
Proof. destruct m1, m2; intros Hlt; try reflexivity; by vm_compute in Hlt. Qed.

(** C9: for modes m1 < m2, rendering under m2 is rendering under m1
    followed by the layers of the modes above m1 up to m2, one layer per
    mode; mode None returns the frame as it is; so a pixel that m1
    changes is changed under m2 as well, unless one of the added layers
    painted over it. *)
Theorem render_cumulative (config : StreamConfig Z) (m1 m2 : OverlayMode)
        (frame : ndarray) :
  OverlayMode_value m1 < OverlayMode_value m2 →
  render (set_overlay_mode m2 config) frame
  = draw_layers config (modes_between m1 m2) (render (set_overlay_mode m1 config) frame)
  ∧ length (modes_between m1 m2)
    = Z.to_nat (OverlayMode_value m2 - OverlayMode_value m1)
  ∧ render (set_overlay_mode NONE config) frame = frame
  ∧ ∀ i j : nat,
      changed frame (render (set_overlay_mode m1 config) frame) i j →
      changed frame (render (set_overlay_mode m2 config) frame) i j
      ∨ changed (render (set_overlay_mode m1 config) frame)
                (render (set_overlay_mode m2 config) frame) i j.
Proof.
  intros Hlt. split; [|split; [|split]].
  - rewrite !render_as_layers. simpl.
    rewrite (modes_between_split m1 m2 Hlt), draw_layers_app.
    by rewrite !draw_layers_ignores_overlay_mode.
  - by apply length_modes_between.
  - reflexivity.
  - intros i j Hlow. unfold changed in *.
    destruct (decide (pixel_at (render (set_overlay_mode m1 config) frame) i j
                      = pixel_at (render (set_overlay_mode m2 config) frame) i j))
      as [Hsame|Hover].
    + left. by rewrite <- Hsame.
    + by right.
Qed.

End Overlay.

Lemma render_cumulative_witness :
  OverlayMode_value MINIMAL < OverlayMode_value FULL
  ∧ OverlayRenderer.render (H := box_drawing) (set_overlay_mode FULL default_config) frame44
    = OverlayRenderer.draw_layers (H := box_drawing) default_config [STANDARD; FULL]
        (OverlayRenderer.render (H := box_drawing)
           (set_overlay_mode MINIMAL default_config) frame44).
Proof.
  assert (OverlayMode_value MINIMAL < OverlayMode_value FULL) as Hlt by reflexivity.
  split; [exact Hlt|].
  exact (proj1 (render_cumulative (H := box_drawing) default_config MINIMAL FULL frame44 Hlt)).
Defined.

(** With the coarse implementation the border layer repaints a 4 by 4
    frame, corner markers around the border colour, and mode None leaves
    it alone. *)
Example render_minimal_example :
  OverlayRenderer.render (H := box_drawing) (set_overlay_mode MINIMAL default_config) frame44
  = mk_ndarray 4
      [ replicate 4 OverlayRenderer.corner;
        [ OverlayRenderer.corner; OverlayRenderer.border_normal;
          OverlayRenderer.border_normal; OverlayRenderer.corner ];
        [ OverlayRenderer.corner; OverlayRenderer.border_normal;
          OverlayRenderer.border_normal; OverlayRenderer.corner ];
        replicate 4 OverlayRenderer.corner ]
  ∧ OverlayRenderer.render (H := box_drawing) (set_overlay_mode NONE default_config) frame44
    = frame44.
Proof. split; reflexivity. Qed.

(** ** Region extraction *)

Section Extraction.
Import StreamCapture.
Context `{Memory}.

Lemma adjust_index_clip (n i : Z) : 0 <= i → adjust_index n i = Z.min i n.
Proof. unfold adjust_index. intros Hi. destruct (Z.ltb_spec i 0); lia. Qed.

Lemma adjust_index_wrap (n i : Z) :
  i < 0 → 0 <= i + n → adjust_index n i = i + n.
Proof. unfold adjust_index. intros Hi Hn. destruct (Z.ltb_spec i 0); lia. Qed.

(** A slice between two non-negative bounds. *)
Lemma lookup_py_slice {A} (a b : Z) (l : list A) (i : nat) :
  0 <= a → 0 <= b →
  py_slice a b l !! i
  = if decide (Z.of_nat i < b - a) then l !! (Z.to_nat a + i)%nat else None.
Proof.
  intros Ha Hb. unfold py_slice. rewrite !adjust_index_clip by done.
  rewrite lookup_take, lookup_drop.
  destruct (decide (Z.of_nat i < b - a)) as [Hin|Hout].
  - destruct (decide (Z.of_nat (Z.to_nat a + i) < Z.of_nat (length l))) as [Hlt|Hge].
    + rewrite decide_True by lia. f_equal. lia.
    + rewrite (lookup_ge_None_2 l (Z.to_nat a + i)) by lia.
      case_decide; [|done]. apply lookup_ge_None_2. lia.
  - rewrite decide_False by lia. done.
Qed.

Lemma length_py_slice {A} (a b : Z) (l : list A) :
  length (py_slice a b l) = py_slice_len (Z.of_nat (length l)) a b.
Proof.
  unfold py_slice, py_slice_len. rewrite length_take, length_drop.
  unfold adjust_index.
  destruct (Z.ltb_spec a 0), (Z.ltb_spec b 0); lia.
Qed.

Lemma well_shaped_rows (a : ndarray) :
  well_shaped a = true → Forall (fun r => length r = ncols a) (rows a).
Proof.
  unfold well_shaped. intros Hw. apply Forall_forall. intros r Hr.
  rewrite forallb_forall in Hw. apply Nat.eqb_eq, Hw. by apply list_elem_of_In.
Qed.

Lemma Forall_py_slice {A} (P : A → Prop) (a b : Z) (l : list A) :
  Forall P l → Forall P (py_slice a b l).
Proof. intros Hl. unfold py_slice. by apply Forall_take, Forall_drop. Qed.

Lemma well_shaped_slice2 (a : ndarray) (y1 y2 x1 x2 : Z) :
  well_shaped a = true →
  Forall (fun r => length r = ncols (slice2 a y1 y2 x1 x2)) (rows (slice2 a y1 y2 x1 x2)).
Proof.
  intros Hw%well_shaped_rows. simpl. apply Forall_fmap, Forall_py_slice.
  eapply Forall_impl; [exact Hw|]. intros r Hr. simpl.
  rewrite length_py_slice, Hr. done.
Qed.


Lemma broadcastable_same (s : nat) : broadcastable s s = true.
Proof. unfold broadcastable. by rewrite bool_decide_eq_true_2. Qed.

Lemma stretch_same {A} (t : nat) (l : list A) : length l = t → stretch t l = l.
Proof. intros Hl. unfold stretch. by rewrite decide_True. Qed.

Lemma setitem_prefix_zeros (src : list (list pixel)) (s1 : nat) (h w : Z) :
  0 <= h → 0 <= w → Z.of_nat (length src) <= h → Z.of_nat s1 <= w →
  Forall (fun r => length r = s1) src →
  setitem_prefix
    {| ncols := Z.to_nat w;
       rows := replicate (Z.to_nat h) (replicate (Z.to_nat w) black) |}
    (Z.of_nat (length src)) (Z.of_nat s1) (mk_ndarray s1 src)
  = Ok (mk_ndarray (Z.to_nat w) (pad_rows src s1 (Z.to_nat h) (Z.to_nat w))).
Proof.
  intros Hh Hw Hs0 Hs1 Hrows.
  unfold setitem_prefix, shape0, shape1, nrows, py_slice_len. simpl.
  rewrite length_replicate, !Z2Nat.id by done.
  rewrite !adjust_index_clip by lia.
  replace (Z.to_nat (Z.min (Z.of_nat (length src)) h - Z.min 0 h)) with (length src) by lia.
  replace (Z.to_nat (Z.min (Z.of_nat s1) w - Z.min 0 w)) with s1 by lia.
  rewrite !broadcastable_same. simpl.
  f_equal. f_equal. unfold pad_rows.
  replace (stretch s1 <$> src) with src.
  2:{ rewrite <- (list_fmap_id src) at 1. apply Forall_fmap_ext_1.
      eapply Forall_impl; [exact Hrows|]. intros r Hr. simpl.
      by rewrite stretch_same. }
  rewrite stretch_same by done.
  rewrite take_replicate, drop_replicate.
  rewrite zip_with_replicate_r by lia.
  f_equal.
  apply list_fmap_ext. intros i r Hr. unfold flip. by rewrite drop_replicate.
Qed.

Lemma lookup_pad_rows (src : list (list pixel)) (s1 h w i : nat) :
  (length src ≤ h)%nat →
  pad_rows src s1 h w !! i
  = if decide (i < length src)%nat
    then (fun v => v ++ replicate (w - s1) black) <$> src !! i
    else if decide (i < h)%nat then Some (replicate w black) else None.
Proof.
  intros Hlen. unfold pad_rows.
  destruct (decide (i < length src)%nat) as [Hin|Hout].
  - rewrite lookup_app_l by (by rewrite length_fmap).
    by rewrite list_lookup_fmap.
  - rewrite lookup_app_r by (rewrite length_fmap; lia).
    rewrite length_fmap.
    destruct (decide (i < h)%nat).
    + apply lookup_replicate_2. lia.
    + apply lookup_replicate_None. lia.
Qed.

Lemma lookup_padded_row (v : list pixel) (s1 w j : nat) :
  length v = s1 → (s1 ≤ w)%nat →
  (v ++ replicate (w - s1) black) !! j
  = if decide (j < s1)%nat then v !! j
    else if decide (j < w)%nat then Some black else None.
Proof.
  intros Hv Hle.
  destruct (decide (j < s1)%nat).
  - apply lookup_app_l. lia.
  - rewrite lookup_app_r by lia.
    destruct (decide (j < w)%nat).
    + apply lookup_replicate_2. lia.
    + apply lookup_replicate_None. lia.
Qed.

Lemma lookup_fmap_seqZ {A} (f : Z → A) (n : Z) (i : nat) :
  (f <$> seqZ 0 n) !! i = if decide (Z.of_nat i < n) then Some (f (Z.of_nat i)) else None.
Proof.
  rewrite list_lookup_fmap.
  destruct (decide (Z.of_nat i < n)).
  - by rewrite lookup_seqZ_lt.
  - by rewrite lookup_seqZ_ge by lia.
Qed.

(** The slice the extraction takes, when both stops are non-negative,
    and what the extraction makes of it when the allocator gives the
    buffer of the padding. *)
Section Clipped.
Variable config : StreamConfig Z.
Variable frame : ndarray.
Hypothesis frame_ok : well_shaped frame = true.
Hypothesis width_pos : 0 < width config.
Hypothesis height_pos : 0 < height config.
Hypothesis right_nonneg : 0 <= x config + width config.
Hypothesis bottom_nonneg : 0 <= y config + height config.
Hypothesis buffer_given : np_zeros_raises (height config) (width config) = None.

Let y1 := Z.max 0 (y config).
Let y2 := Z.min (shape0 frame) (y config + height config).
Let x1 := Z.max 0 (x config).
Let x2 := Z.min (shape1 frame) (x config + width config).
Let stream := slice2 frame y1 y2 x1 x2.

Lemma stream_nrows : nrows stream = Z.to_nat (y2 - y1).
Proof.
  unfold nrows, stream, slice2. simpl.
  rewrite length_fmap, length_py_slice. unfold py_slice_len.
  rewrite !adjust_index_clip by (unfold y1, y2, shape0; lia).
  unfold y1, y2, shape0, nrows. lia.
Qed.

Lemma stream_ncols : ncols stream = Z.to_nat (x2 - x1).
Proof.
  unfold stream, slice2, py_slice_len. simpl.
  rewrite !adjust_index_clip by (unfold x1, x2, shape1; lia).
  unfold x1, x2, shape1. lia.
Qed.

Lemma stream_row (i : nat) :
  Z.of_nat i < y2 - y1 →
  ∃ r, rows frame !! (Z.to_nat y1 + i)%nat = Some r
       ∧ length r = ncols frame
       ∧ rows stream !! i = Some (py_slice x1 x2 r).
Proof.
  intros Hi.
  destruct (lookup_lt_is_Some_2 (rows frame) (Z.to_nat y1 + i)) as [r Hr].
  { unfold y1, y2, shape0, nrows in *. lia. }
  exists r. split; [done|]. split.
  - by apply (Forall_lookup_1 _ _ _ _ (well_shaped_rows frame frame_ok) Hr).
  - unfold stream, slice2. simpl.
    rewrite list_lookup_fmap, lookup_py_slice by (unfold y1, y2, shape0; lia).
    rewrite decide_True by done. by rewrite Hr.
Qed.

Lemma stream_pixel (r : list pixel) (j : nat) :
  length r = ncols frame → Z.of_nat j < x2 - x1 →
  ∃ p, r !! (Z.to_nat x1 + j)%nat = Some p ∧ py_slice x1 x2 r !! j = Some p.
Proof.
  intros Hr Hj.
  destruct (lookup_lt_is_Some_2 r (Z.to_nat x1 + j)) as [p Hp].
  { unfold x1, x2, shape1 in *. lia. }
  exists p. split; [done|].
  rewrite lookup_py_slice by (unfold x1, x2, shape1; lia).
  by rewrite decide_True.
Qed.

(** The result of the extraction: the slice, padded where it is smaller
    than the region. *)
Lemma extract_region_padded :
  _extract_region config frame
  = Ok (mk_ndarray (Z.to_nat (width config))
          (pad_rows (rows stream) (ncols stream)
                    (Z.to_nat (height config)) (Z.to_nat (width config)))).
Proof.
  unfold _extract_region. fold y1 y2 x1 x2 stream.
  pose proof stream_nrows as Hn. pose proof stream_ncols as Hc.
  pose proof (well_shaped_slice2 frame y1 y2 x1 x2 frame_ok) as Hrows.
  fold stream in Hrows.
  assert (Z.of_nat (nrows stream) <= height config) as Hle0
    by (rewrite Hn; unfold y1, y2; lia).
  assert (Z.of_nat (ncols stream) <= width config) as Hle1
    by (rewrite Hc; unfold x1, x2; lia).
  destruct ((shape0 stream <? height config) || (shape1 stream <? width config))
    eqn:Hsmall.
  - unfold np_zeros.
    replace (height config <? 0) with false by (symmetry; apply Z.ltb_ge; lia).
    replace (width config <? 0) with false by (symmetry; apply Z.ltb_ge; lia).
    rewrite buffer_given. simpl.
    apply (setitem_prefix_zeros (rows stream) (ncols stream)); try lia; done.
  - apply orb_false_elim in Hsmall as [H0%Z.ltb_ge H1%Z.ltb_ge].
    unfold shape0, shape1 in H0, H1.
    f_equal. unfold pad_rows.
    replace (Z.to_nat (width config) - ncols stream)%nat with 0%nat by lia.
    replace (Z.to_nat (height config) - length (rows stream))%nat with 0%nat
      by (unfold nrows in *; lia).
    simpl. rewrite app_nil_r.
    replace ((fun v : list pixel => v ++ []) <$> rows stream) with (rows stream).
    2:{ rewrite <- (list_fmap_id (rows stream)) at 1. apply list_fmap_ext.
        intros i r _. simpl. by rewrite app_nil_r. }
    replace (Z.to_nat (width config)) with (ncols stream) by lia.
    by destruct stream.
Qed.

Lemma reference_row (i : nat) :
  rows (Reference.extract config frame) !! i
  = if decide (Z.of_nat i < height config)
    then Some ((fun j : Z =>
                  if (Z.of_nat i <? y2 - y1) && (j <? x2 - x1)
                  then default black (pixel_at frame (Z.to_nat (y1 + Z.of_nat i))
                                               (Z.to_nat (x1 + j)))
                  else black) <$> seqZ 0 (width config))
    else None.
Proof. unfold Reference.extract. simpl. apply lookup_fmap_seqZ. Qed.

Lemma padded_is_reference :
  pad_rows (rows stream) (ncols stream)
           (Z.to_nat (height config)) (Z.to_nat (width config))
  = rows (Reference.extract config frame).
Proof.
  pose proof stream_nrows as Hn. pose proof stream_ncols as Hc.
  unfold nrows in Hn.
  assert (y2 - y1 <= height config) as Hrows by (unfold y1, y2; lia).
  assert (x2 - x1 <= width config) as Hcols by (unfold x1, x2; lia).
  assert (0 <= y1 ∧ 0 <= x1) as [Hy1 Hx1] by (unfold y1, x1; lia).
  apply list_eq. intros i.
  rewrite lookup_pad_rows, reference_row by lia.
  destruct (decide (i < length (rows stream))%nat) as [Hin|Hout].
  - rewrite decide_True by lia.
    destruct (stream_row i) as (r & Hr & Hlen & ->); [lia|].
    rewrite fmap_Some_2 with (x := py_slice x1 x2 r) by done. f_equal.
    apply list_eq. intros j.
    rewrite lookup_padded_row.
    2:{ rewrite length_py_slice, Hlen. done. }
    2:{ lia. }
    rewrite lookup_fmap_seqZ.
    replace (Z.of_nat i <? y2 - y1) with true by (symmetry; apply Z.ltb_lt; lia).
    rewrite andb_true_l.
    destruct (decide (j < ncols stream)%nat) as [Hjin|Hjout].
    + rewrite decide_True by lia.
      replace (Z.of_nat j <? x2 - x1) with true by (symmetry; apply Z.ltb_lt; lia).
      destruct (stream_pixel r j Hlen) as (p & Hp & ->); [lia|].
      f_equal. unfold pixel_at.
      replace (Z.to_nat (y1 + Z.of_nat i)) with (Z.to_nat y1 + i)%nat by lia.
      rewrite Hr.
      replace (Z.to_nat (x1 + Z.of_nat j)) with (Z.to_nat x1 + j)%nat by lia.
      simpl. by rewrite Hp.
    + replace (Z.of_nat j <? x2 - x1) with false
        by (symmetry; apply Z.ltb_ge; lia).
      destruct (decide (j < Z.to_nat (width config))%nat).
      * by rewrite decide_True by lia.
      * by rewrite decide_False by lia.
  - destruct (decide (i < Z.to_nat (height config))%nat).
    + rewrite decide_True by lia. f_equal.
      replace (Z.of_nat i <? y2 - y1) with false
        by (symmetry; apply Z.ltb_ge; lia).
      cbn [andb]. apply list_eq. intros j.
      rewrite lookup_fmap_seqZ.
      destruct (decide (j < Z.to_nat (width config))%nat).
      * rewrite decide_True by lia. apply lookup_replicate_2. lia.
      * rewrite decide_False by lia. apply lookup_replicate_None. lia.
    + by rewrite decide_False by lia.
Qed.

End Clipped.

(** A slice between bounds that lie inside the sequence. *)
Lemma py_slice_inside {A} (a b : Z) (l : list A) :
  0 <= a → a <= b → b <= Z.of_nat (length l) →
  py_slice a b l = take (Z.to_nat (b - a)) (drop (Z.to_nat a) l).
Proof.
  intros Ha Hab Hb. unfold py_slice. rewrite !adjust_index_clip by lia.
  by rewrite !Z.min_l by lia.
Qed.

(** Where the extraction agrees with the specification: a region of
    positive size whose right and bottom edges are not left of or above
    the frame's origin is extracted as the specification describes,
    provided [np.zeros] gets a buffer of the region's size. *)
Theorem extract_region_matches_reference (config : StreamConfig Z) (frame : ndarray) :
  well_shaped frame = true →
  0 < width config → 0 < height config →
  0 <= x config + width config → 0 <= y config + height config →
  np_zeros_raises (height config) (width config) = None →
  _extract_region config frame = Ok (Reference.extract config frame).
Proof.
  intros Hok Hw Hh Hr Hb Hmem.
  rewrite extract_region_padded by done.
  by rewrite padded_is_reference.
Qed.

(** Without the buffer the padding raises what the allocator raises. *)
Lemma extract_region_no_buffer (config : StreamConfig Z) (frame : ndarray) (e : exn) :
  0 <= width config → 0 <= height config →
  shape0 (slice2 frame (Z.max 0 (y config))
                 (Z.min (shape0 frame) (y config + height config))
                 (Z.max 0 (x config))
                 (Z.min (shape1 frame) (x config + width config))) < height config →
  np_zeros_raises (height config) (width config) = Some e →
  _extract_region config frame = Raise e.
Proof.
  intros Hw Hh Hsmall Hmem. unfold _extract_region, np_zeros.
  apply Z.ltb_lt in Hsmall. rewrite Hsmall, Hmem. simpl.
  replace (height config <? 0) with false by (symmetry; apply Z.ltb_ge; lia).
  by replace (width config <? 0) with false by (symmetry; apply Z.ltb_ge; lia).
Qed.


(** A region inside the frame is extracted as the direct copy of its
    sub-rectangle. *)
Theorem extract_region_inside (config : StreamConfig Z) (frame : ndarray) :
  well_shaped frame = true →
  0 < width config → 0 < height config →
  0 <= x config → 0 <= y config →
  x config + width config <= shape1 frame →
  y config + height config <= shape0 frame →
  _extract_region config frame = Ok (Reference.sub_rectangle config frame).
Proof.
  intros Hok Hw Hh Hx Hy Hr Hb.
  pose proof (well_shaped_rows frame Hok) as Hrows.
  unfold _extract_region.
  rewrite !Z.max_r, !Z.min_r by lia.
  assert (slice2 frame (y config) (y config + height config)
                 (x config) (x config + width config)
          = Reference.sub_rectangle config frame) as ->.
  { unfold slice2, Reference.sub_rectangle, py_slice_len.
    rewrite !adjust_index_clip by lia. f_equal; [lia|].
    rewrite py_slice_inside by (unfold shape0, nrows in Hb; lia).
    replace (y config + height config - y config) with (height config) by lia.
    apply Forall_fmap_ext_1, Forall_take, Forall_drop.
    eapply Forall_impl; [exact Hrows|]. intros r Hlen. simpl in Hlen |- *.
    rewrite py_slice_inside by (unfold shape1 in Hr; lia).
    by replace (x config + width config - x config) with (width config) by lia. }
  assert (shape0 (Reference.sub_rectangle config frame) = height config) as ->.
  { unfold shape0, nrows, Reference.sub_rectangle. simpl.
    rewrite length_fmap, length_take, length_drop.
    unfold shape0, nrows in Hb. lia. }
  assert (shape1 (Reference.sub_rectangle config frame) = width config) as ->.
  { unfold shape1, Reference.sub_rectangle. simpl. lia. }
  by rewrite !Z.ltb_irrefl.
Qed.


(** What the specification describes for a region that misses the
    frame: an all-black frame of the requested size. *)
Lemma reference_outside (config : StreamConfig Z) (frame : ndarray) :
  x config + width config <= 0 ∨ y config + height config <= 0
  ∨ shape1 frame <= x config ∨ shape0 frame <= y config →
  Reference.extract config frame = Reference.all_black (height config) (width config).
Proof.
  intros Hout. unfold Reference.extract, Reference.all_black. f_equal.
  apply list_eq. intros i. rewrite lookup_fmap_seqZ.
  destruct (decide (Z.of_nat i < height config)).
  - rewrite lookup_replicate_2 by lia. f_equal.
    apply list_eq. intros j. rewrite lookup_fmap_seqZ.
    destruct (decide (Z.of_nat j < width config)).
    + rewrite lookup_replicate_2 by lia. f_equal.
      destruct (Z.ltb_spec (Z.of_nat i)
                  (Z.min (shape0 frame) (y config + height config) - Z.max 0 (y config)));
        [|done].
      destruct (Z.ltb_spec (Z.of_nat j)
                  (Z.min (shape1 frame) (x config + width config) - Z.max 0 (x config)));
        [|done].
      lia.
    + symmetry. apply lookup_replicate_None. lia.
  - symmetry. apply lookup_replicate_None. lia.
Qed.

(** A region of positive size whose right and bottom edges are not
    left of or above the frame's origin, and which lies right of or
    below the frame or ends exactly at its origin, is extracted as an
    all-black frame of the requested size, provided [np.zeros] gets a
    buffer of that size. *)
Theorem extract_region_outside (config : StreamConfig Z) (frame : ndarray) :
  well_shaped frame = true →
  0 < width config → 0 < height config →
  0 <= x config + width config → 0 <= y config + height config →
  np_zeros_raises (height config) (width config) = None →
  x config + width config = 0 ∨ y config + height config = 0
  ∨ shape1 frame <= x config ∨ shape0 frame <= y config →
  _extract_region config frame
  = Ok (Reference.all_black (height config) (width config)).
Proof.
  intros Hok Hw Hh Hr Hb Hmem Hout.
  rewrite extract_region_padded, padded_is_reference by done.
  rewrite <- (reference_outside config frame) by lia.
  reflexivity.
Qed.


(** C1 fails above the frame: the region with x = 0, y = -3 of 2 by 2
    pixels misses the 4 by 4 frame, whose extraction the specification
    gives as a black 2 by 2 frame; the stop of the row slice is -1,
    which numpy counts from the end, and the code returns the first
    three rows of the frame's first two columns. *)
Theorem extract_region_above_frame_copies_frame :
  (0 < width (region 0 (-3) 2 2) ∧ 0 < height (region 0 (-3) 2 2))
  ∧ _extract_region (region 0 (-3) 2 2) frame44
    = Ok (mk_ndarray 2 [ [px 1; px 2]; [px 5; px 6]; [px 9; px 10] ])
  ∧ Reference.extract (region 0 (-3) 2 2) frame44
    = mk_ndarray 2 [ [black; black]; [black; black] ]
  ∧ Reference.all_black 2 2 = mk_ndarray 2 [ [black; black]; [black; black] ].
Proof. repeat split. Qed.


(** C2 fails above the frame: for a region that ends above the frame's
    first row but no more than the frame's height above it, and whose
    columns lie inside the frame, the code returns, without padding, the
    rows of the frame up to the wrapped stop: as many rows as the frame
    has, less the distance of the region's bottom edge from the frame. *)
Theorem extract_region_shape_above_frame (config : StreamConfig Z) (frame : ndarray) :
  0 < width config → 0 < height config →
  y config + height config < 0 →
  height config <= shape0 frame + (y config + height config) →
  0 <= x config → x config + width config <= shape1 frame →
  ∃ stream : ndarray,
    _extract_region config frame = Ok stream
    ∧ shape0 stream = shape0 frame + (y config + height config)
    ∧ shape1 stream = width config.
Proof.
  intros Hw Hh Habove Hfit Hx Hr.
  unfold _extract_region.
  rewrite (Z.max_l 0 (y config)), (Z.min_r _ (y config + height config)) by lia.
  rewrite (Z.max_r 0 (x config)), (Z.min_r _ (x config + width config)) by lia.
  set (stream := slice2 frame _ _ _ _).
  assert (shape0 stream = shape0 frame + (y config + height config)) as H0.
  { unfold stream, shape0, nrows, slice2. simpl.
    rewrite length_fmap, length_py_slice. unfold py_slice_len.
    rewrite adjust_index_wrap, adjust_index_clip by (unfold shape0, nrows in *; lia).
    unfold shape0, nrows in *. lia. }
  assert (shape1 stream = width config) as H1.
  { unfold stream, shape1, slice2, py_slice_len. simpl.
    rewrite !adjust_index_clip by lia. unfold shape1 in *. lia. }
  exists stream. rewrite H0, H1.
  replace (shape0 frame + (y config + height config) <? height config) with false
    by (symmetry; apply Z.ltb_ge; lia).
  by rewrite Z.ltb_irrefl.
Qed.


End Extraction.

Lemma extract_region_matches_reference_witness :
  StreamCapture._extract_region (H := ample_memory) (region (-1) 3 3 2) frame44
  = Ok (mk_ndarray 3 [ [px 13; px 14; black]; [black; black; black] ]).
Proof.
  rewrite (extract_region_matches_reference (H := ample_memory)
             (region (-1) 3 3 2) frame44);
    [reflexivity|reflexivity|reflexivity|reflexivity
    |discriminate|discriminate|reflexivity].
Defined.

Lemma extract_region_inside_witness :
  StreamCapture._extract_region (H := ample_memory) (region 1 1 2 2) frame44
  = Ok (mk_ndarray 2 [ [px 6; px 7]; [px 10; px 11] ]).
Proof.
  rewrite (extract_region_inside (H := ample_memory) (region 1 1 2 2) frame44);
    [reflexivity|reflexivity|reflexivity|reflexivity
    |discriminate|discriminate|discriminate|discriminate].
Defined.

Lemma extract_region_outside_witness :
  StreamCapture._extract_region (H := ample_memory) (region 7 7 3 2) frame44
  = Ok (mk_ndarray 3 [ [black; black; black]; [black; black; black] ]).
Proof.
  rewrite (extract_region_outside (H := ample_memory) (region 7 7 3 2) frame44);
    [reflexivity|reflexivity|reflexivity|reflexivity
    |discriminate|discriminate|reflexivity|].
  right. right. left. discriminate.
Defined.

(** A partly padded slice of the same kind does not fit the buffer, and
    the extraction raises. *)
Example extract_region_above_frame_raises :
  StreamCapture._extract_region (H := ample_memory) (region 2 (-3) 3 2) frame44
  = Raise ValueError.
Proof. reflexivity. Qed.

Lemma extract_region_shape_above_frame_witness :
  ∃ stream : ndarray,
    StreamCapture._extract_region (H := ample_memory)
      (region 40 (-300) 340 230) screen_1080p = Ok stream
    ∧ shape0 stream = 1010
    ∧ shape1 stream = 340.
Proof.
  assert (shape0 screen_1080p = 1080) as Hrows by (vm_compute; reflexivity).
  assert (shape1 screen_1080p = 1920) as Hcols by reflexivity.
  destruct (extract_region_shape_above_frame (H := ample_memory)
              (region 40 (-300) 340 230) screen_1080p)
    as (stream & Hstream & H0 & H1).
  - reflexivity.
  - reflexivity.
  - reflexivity.
  - rewrite Hrows. discriminate.
  - discriminate.
  - rewrite Hcols. discriminate.
  - exists stream. rewrite Hrows in H0. done.
Defined.

(** A region larger than the allocator has room for: the padding raises
    [MemoryError], and the capture thread's turn leaves the queue as it
    was. *)
Example extract_region_out_of_memory :
  StreamCapture._extract_region (H := scarce_memory) (region 0 0 2000 1000) frame44
  = Raise MemoryError
  ∧ StreamCapture.capture_turn (H := scarce_memory) (region 0 0 2000 1000)
      StreamCapture.new_frame_queue frame44
    = Some StreamCapture.new_frame_queue.
Proof. split; vm_compute; reflexivity. Qed.

(** ** Auto-detection *)

Section AutoDetect.
Context `{Vision}.

Lemma auto_detect_loop_none (config : StreamConfig Z) (rects : list rect) :
  Forall (fun r => ¬ stream_sized r) rects →
  auto_detect_loop config rects = (false, config).
Proof.
  induction 1 as [|[[[rx ry] rw] rh] rects Hr _ IH]; simpl; [done|].
  unfold stream_sized in Hr.
  destruct (Z.ltb_spec 300 rw), (Z.ltb_spec rw 400),
           (Z.ltb_spec 200 rh), (Z.ltb_spec rh 300); simpl; try done.
  exfalso. apply Hr. lia.
Qed.

Lemma auto_detect_loop_fit (config : StreamConfig Z) (rx ry rw rh : Z) (rest : list rect) :
  stream_sized (rx, ry, rw, rh) →
  auto_detect_loop config ((rx, ry, rw, rh) :: rest)
  = (true, mkStreamConfig rx ry rw rh (overlay_mode config) (movement_mode config)
                          (auto_save config) (config_file config)).
Proof.
  unfold stream_sized. intros Hfit. simpl.
  destruct (Z.ltb_spec 300 rw), (Z.ltb_spec rw 400),
           (Z.ltb_spec 200 rh), (Z.ltb_spec rh 300); simpl; try lia.
  done.
Qed.

Lemma auto_detect_loop_skip (config : StreamConfig Z) (skipped rects : list rect) :
  Forall (fun r => ¬ stream_sized r) skipped →
  auto_detect_loop config (skipped ++ rects) = auto_detect_loop config rects.
Proof.
  induction 1 as [|[[[rx ry] rw] rh] skipped Hr _ IH]; simpl; [done|].
  unfold stream_sized in Hr.
  destruct (Z.ltb_spec 300 rw), (Z.ltb_spec rw 400),
           (Z.ltb_spec 200 rh), (Z.ltb_spec rh 300); simpl; try done.
  exfalso. apply Hr. lia.
Qed.

(** [auto_detect] takes the first contour whose bounding rectangle is
    more than 300 and less than 400 wide and more than 200 and less
    than 300 high: the region becomes that rectangle, the other fields
    stay, and the call returns [True]; with no such contour it returns
    [False] and leaves the configuration as it was. *)
Theorem auto_detect_takes_first_fit (config : StreamConfig Z) (frame : ndarray) :
  (Forall (fun r => ¬ stream_sized r) (bounding_rects frame) →
   auto_detect config frame = (false, config))
  ∧ (∀ (skipped rest : list rect) (rx ry rw rh : Z),
       bounding_rects frame = skipped ++ (rx, ry, rw, rh) :: rest →
       Forall (fun r => ¬ stream_sized r) skipped →
       stream_sized (rx, ry, rw, rh) →
       auto_detect config frame
       = (true, mkStreamConfig rx ry rw rh (overlay_mode config) (movement_mode config)
                               (auto_save config) (config_file config))).
Proof.
  unfold auto_detect. split.
  - apply auto_detect_loop_none.
  - intros skipped rest rx ry rw rh -> Hskipped Hfit.
    rewrite auto_detect_loop_skip by done.
    by apply auto_detect_loop_fit.
Qed.

(** The region [auto_detect] leaves is the one it found or the one it
    was given. *)
Lemma auto_detect_loop_size (config : StreamConfig Z) (rects : list rect) :
  (auto_detect_loop config rects).2 = config
  ∨ (300 < width (auto_detect_loop config rects).2 < 400
     ∧ 200 < height (auto_detect_loop config rects).2 < 300
     ∧ overlay_mode (auto_detect_loop config rects).2 = overlay_mode config
     ∧ movement_mode (auto_detect_loop config rects).2 = movement_mode config
     ∧ auto_save (auto_detect_loop config rects).2 = auto_save config
     ∧ config_file (auto_detect_loop config rects).2 = config_file config).
Proof.
  induction rects as [|[[[rx ry] rw] rh] rects IH]; simpl; [by left|].
  destruct (Z.ltb_spec 300 rw), (Z.ltb_spec rw 400),
           (Z.ltb_spec 200 rh), (Z.ltb_spec rh 300); simpl; try done.
  right. simpl. repeat split; (done || lia).
Qed.

End AutoDetect.

(** Two shapes are found on the screen: a small icon, then a rectangle
    of the size of the stream, then another one of that size. *)
Example auto_detect_example :
  auto_detect (H := icon_then_stream) debug_turbo_config frame44
  = (true, mkStreamConfig 52 341 338 229 DEBUG TURBO false "stream_config.json").
Proof. reflexivity. Qed.

(** ** The orchestrator *)

Section Orchestrator.
Import UnifiedStreamSystem.
Context `{Vision}.

Lemma index_of_member (m : MovementMode) :
  index_of m MovementMode_members
  = Some (match m with FINE => 0 | NORMAL => 1 | FAST => 2 | TURBO => 3 end)%nat.
Proof. by destruct m. Qed.

Lemma key_range (raw : Z) : 0 <= Z.land raw 255 <= 255.
Proof.
  split.
  - apply Z.land_nonneg. lia.
  - assert (Z.land raw 255 = raw mod 2 ^ 8) as -> by apply (Z.land_ones raw 8 ltac:(lia)).
    pose proof (Z.mod_pos_bound raw (2 ^ 8) ltac:(lia)). lia.
Qed.

Ltac key_facts :=
  repeat match goal with
    | H : (_ =? _) = true |- _ => apply Z.eqb_eq in H
    | H : (_ =? _) = false |- _ => apply Z.eqb_neq in H
    | H : (_ <=? _) = true |- _ => apply Z.leb_le in H
    | H : (_ <=? _) = false |- _ => apply Z.leb_gt in H
    | H : (_ || _) = true |- _ => apply orb_true_iff in H
    | H : (_ || _) = false |- _ => apply orb_false_iff in H; destruct H
    | H : (_ && _) = true |- _ => apply andb_true_iff in H; destruct H
    | H : (_ && _) = false |- _ => apply andb_false_iff in H
    end;
  change (ord "009") with 9 in *; change (ord "+") with 43 in *;
  change (ord "=") with 61 in *; change (ord "-") with 45 in *;
  change (ord "1") with 49 in *; change (ord "5") with 53 in *;
  change (ord "b") with 98 in *; change (ord "c") with 99 in *;
  change (ord "a") with 97 in *; change (ord "r") with 114 in *;
  change (ord "s") with 115 in *; change (ord " ") with 32 in *;
  change (ord "q") with 113 in *.

Lemma get_frame_returns (q : Queue ndarray) :
  ∃ f q', StreamCapture.get_frame q = Ok (f, q').
Proof.
  unfold StreamCapture.get_frame, q_get_nowait.
  destruct (items q); by eexists _, _.
Qed.

(** The overlay keys name a member each. *)
Lemma overlay_key_mode (key : Z) :
  49 <= key <= 53 →
  ∃ m, OverlayMode_call (VInt (key - 49)) = Ok m ∧ OverlayMode_value m = key - 49.
Proof.
  intros Hkey.
  assert (key = 49 ∨ key = 50 ∨ key = 51 ∨ key = 52 ∨ key = 53)
    as [->|[->|[->|[->| ->]]]] by lia; by eexists.
Qed.

(** What [_handle_input] raises, the outside world raised. *)
Lemma handle_input_raises (env : Env) (s : System) (e : exn) :
  (_handle_input env s).1 = Raise e → input_raises env e.
Proof.
  unfold _handle_input, _calibrate, imwrite, ConfigManager.save, input_raises.
  generalize (Z.land (waitKey env) 255). intros key.
  rewrite index_of_member.
  repeat case_match; key_facts; simpl; intros He; simplify_eq;
    try (left; repeat split; (done || lia));
    try (right; left; split; (done || lia));
    try (right; right; split; [lia|done]).
  - destruct (overlay_key_mode key) as (m & Hm & _); [lia|]. congruence.
  - destruct (get_frame_returns (sys_queue s)) as (f & q & Hq). congruence.
Qed.

(** [_handle_input] raises only what the outside world raises: [save]
    on the key [s], [cv2.imwrite] on the space bar, the screenshot and
    the OpenCV calls on the keys [a] and [c].  It returns [False]
    exactly on the keys [q] and Esc, and changes nothing when it does. *)
Theorem handle_input_quits_on_q_or_esc (env : Env) (s : System) :
  (∀ e : exn, (_handle_input env s).1 = Raise e → input_raises env e)
  ∧ ((_handle_input env s).1 = Ok false
     ↔ Z.land (waitKey env) 255 = ord "q" ∨ Z.land (waitKey env) 255 = 27)
  ∧ ((_handle_input env s).1 = Ok false → (_handle_input env s).2 = s).
Proof.
  split; [intros e; apply handle_input_raises|].
  unfold _handle_input, _calibrate, imwrite, ConfigManager.save.
  generalize (Z.land (waitKey env) 255). intros key.
  repeat case_match; key_facts; simpl;
    repeat split; try done; try lia.
  all: intros [?|?]; lia.
Qed.

(** Every key but [c] keeps a width and a height of at least 50:
    resizing floors them, reset and auto-detection set values above 50,
    and the other keys leave them alone. *)
Theorem handle_input_keeps_size_floor (env : Env) (s : System) :
  Z.land (waitKey env) 255 ≠ ord "c" →
  50 <= width (sys_config s) → 50 <= height (sys_config s) →
  50 <= width (sys_config (_handle_input env s).2)
  ∧ 50 <= height (sys_config (_handle_input env s).2).
Proof.
  unfold _handle_input, imwrite, ConfigManager.save.
  generalize (Z.land (waitKey env) 255). intros key Hc Hw Hh.
  rewrite index_of_member.
  repeat case_match; key_facts; simplify_eq; simpl; try done; try lia.
  match goal with
  | Hd : auto_detect _ _ = (_, ?c) |- _ =>
      pose proof (auto_detect_loop_size (sys_config s) (bounding_rects (screenshot env)))
        as Hsize;
      unfold auto_detect in Hd; rewrite Hd in Hsize; simpl in Hsize;
      destruct Hsize as [->|Hsize]; [done|lia]
  end.
Qed.

(** No key changes auto_save, config_file or the frames shown; only
    [s] and the space bar write to the file system; only the space bar
    takes a frame from the queue or writes an image. *)
Theorem handle_input_frame (env : Env) (s : System) :
  auto_save (sys_config (_handle_input env s).2) = auto_save (sys_config s)
  ∧ config_file (sys_config (_handle_input env s).2) = config_file (sys_config s)
  ∧ sys_shown (_handle_input env s).2 = sys_shown s
  ∧ (Z.land (waitKey env) 255 ≠ ord "s" → Z.land (waitKey env) 255 ≠ ord " " →
     sys_fs (_handle_input env s).2 = sys_fs s)
  ∧ (Z.land (waitKey env) 255 ≠ ord " " →
     sys_queue (_handle_input env s).2 = sys_queue s
     ∧ sys_images (_handle_input env s).2 = sys_images s).
Proof.
  unfold _handle_input, _calibrate, imwrite, ConfigManager.save.
  generalize (Z.land (waitKey env) 255). intros key.
  rewrite index_of_member.
  repeat case_match; key_facts; simplify_eq; simpl; repeat split; try done; try lia.
  all: match goal with
       | Hd : auto_detect _ _ = (_, ?c) |- _ =>
           pose proof (auto_detect_loop_size (sys_config s)
                         (bounding_rects (screenshot env))) as Hsize;
           unfold auto_detect in Hd; rewrite Hd in Hsize; simpl in Hsize;
           destruct Hsize as [->|Hsize]; [done|tauto]
       end.
Qed.

Lemma with_config_same (s : System) : with_config (sys_config s) s = s.
Proof. by destruct s. Qed.

(** The Tab key moves the speed tier one step along Fine, Normal, Fast,
    Turbo and from Turbo back to Fine, and changes nothing else; four
    presses leave the system as it was. *)
Theorem tab_cycles_speed (env : Env) (s : System) :
  Z.land (waitKey env) 255 = ord "009" →
  _handle_input env s
  = (Ok true,
     with_config
       (set_movement_mode
          (match movement_mode (sys_config s) with
           | FINE => NORMAL | NORMAL => FAST | FAST => TURBO | TURBO => FINE
           end) (sys_config s)) s)
  ∧ Nat.iter 4 (fun s => (_handle_input env s).2) s = s.
Proof.
  intros Hkey.
  assert (∀ s, _handle_input env s
               = (Ok true,
                  with_config
                    (set_movement_mode
                       (match movement_mode (sys_config s) with
                        | FINE => NORMAL | NORMAL => FAST | FAST => TURBO | TURBO => FINE
                        end) (sys_config s)) s)) as Hstep.
  { intros s0. unfold _handle_input. rewrite Hkey, index_of_member.
    by destruct (movement_mode (sys_config s0)). }
  split; [apply Hstep|].
  simpl. rewrite !Hstep. simpl.
  destruct s as [[] ? ? ? ?]. simpl.
  by destruct movement_mode0.
Qed.

(** The key [b] sets the overlay mode to Minimal when it is None and to
    None otherwise, so two presses end in None from None and in Minimal
    from every other mode: the toggle gives back Standard, Full or Debug
    never. *)
Theorem border_toggle_twice (env : Env) (s : System) :
  Z.land (waitKey env) 255 = ord "b" →
  (_handle_input env (_handle_input env s).2).2
  = with_config
      (set_overlay_mode
         (match overlay_mode (sys_config s) with NONE => NONE | _ => MINIMAL end)
         (sys_config s)) s.
Proof.
  intros Hkey. unfold _handle_input. rewrite !Hkey. simpl.
  destruct s as [[] ? ? ? ?]. simpl.
  by destruct overlay_mode0.
Qed.

(** The keys [1] to [5] set the overlay mode to the member whose value
    is the key's distance from [1], and change nothing else. *)
Theorem overlay_keys_select_mode (env : Env) (s : System) (m : OverlayMode) :
  Z.land (waitKey env) 255 = ord "1" + OverlayMode_value m →
  _handle_input env s = (Ok true, with_config (set_overlay_mode m (sys_config s)) s).
Proof.
  intros Hkey. unfold _handle_input. rewrite Hkey.
  by destruct m.
Qed.

End Orchestrator.

Lemma tab_cycles_speed_witness :
  (UnifiedStreamSystem._handle_input (H := icon_then_stream) (pressed 9)
     (with_config debug_turbo_config fresh_system)).2
  = mkSystem (set_movement_mode FINE debug_turbo_config) StreamCapture.new_frame_queue ∅ [] [].
Proof.
  rewrite (proj1 (tab_cycles_speed (H := icon_then_stream)
                    (pressed 9)
                    (with_config debug_turbo_config fresh_system)
                    eq_refl)).
  reflexivity.
Defined.


Lemma border_toggle_twice_witness :
  (UnifiedStreamSystem._handle_input (H := icon_then_stream) (pressed 98)
     (UnifiedStreamSystem._handle_input (H := icon_then_stream)
        (pressed 98)
        (with_config debug_turbo_config fresh_system)).2).2
  = mkSystem (set_overlay_mode MINIMAL debug_turbo_config)
             StreamCapture.new_frame_queue ∅ [] [].
Proof.
  rewrite (border_toggle_twice (H := icon_then_stream)
             (pressed 98)
             (with_config debug_turbo_config fresh_system)
             eq_refl).
  reflexivity.
Defined.


Lemma overlay_keys_select_mode_witness :
  UnifiedStreamSystem._handle_input (H := icon_then_stream) (pressed 52)
    fresh_system
  = (Ok true, mkSystem (set_overlay_mode FULL default_config)
                       StreamCapture.new_frame_queue ∅ [] []).
Proof.
  exact (overlay_keys_select_mode (H := icon_then_stream)
           (pressed 52)
           fresh_system
           FULL eq_refl).
Defined.

(** ** A session and the next *)

Section Session.
Import UnifiedStreamSystem.
Context `{Drawing} `{Vision} `{Memory}.










(** What [finally] raises is the pending exception or one raised while
    the loop is left. *)
Lemma finally_crashed (shutdown : Shutdown) (pending : option exn) (s : System)
      (e : exn) :
  (finally shutdown pending s).1 = Crashed e →
  pending = Some e ∨ shutdown_raises shutdown e.
Proof.
  unfold finally, ConfigManager.save, shutdown_raises.
  destruct (join_returns shutdown); [|done].
  destruct (destroy_raises shutdown) as [e'|]; simpl.
  { intros He. inversion He. right. by left. }
  destruct (auto_save (sys_config s)), (final_write shutdown), pending;
    simpl; intros He; inversion He; subst; eauto.
Qed.

(** What an iteration raises, the outside world raised. *)
Lemma iteration_raise_is_external (env : Env) (s : System) (e : exn) :
  (iteration env s).1 = Raise e → iteration_raises env e.
Proof.
  unfold iteration, iteration_raises.
  destruct (get_frame_returns (sys_queue s)) as (f & q & ->).
  destruct f as [frame|]; [|done].
  destruct (display_raises env) as [e'|]; simpl.
  - intros He. inversion He. by left.
  - intros He. right. by apply handle_input_raises in He.
Qed.





(** An exception that [run_interactive] raises was raised by the
    outside world: by the display, the screenshot, [cv2.imwrite] or
    [save] in one of the iterations, or by closing the windows or the
    last [save] when the loop is left.  No key and no frame makes the
    code of the loop raise by itself. *)
Theorem run_interactive_crashes_from_outside (shutdown : Shutdown)
        (events : list event) (s : System) (e : exn) :
  (run_interactive shutdown events s).1 = Crashed e →
  (∃ env : Env, Iteration env ∈ events ∧ iteration_raises env e)
  ∨ shutdown_raises shutdown e.
Proof.
  revert s. induction events as [|[frame|env] events IH]; intros s; simpl.
  - done.
  - intros He. destruct (IH _ He) as [(env & Hin & Henv)|Hsd]; [left|by right].
    exists env. split; [by apply list_elem_of_further|done].
  - pose proof (iteration_raise_is_external env s) as Hit.
    destruct (iteration env s) as [[[|]|e0] s1]; simpl in Hit; intros He.
    + destruct (IH _ He) as [(env' & Hin & Henv)|Hsd]; [left|by right].
      exists env'. split; [by apply list_elem_of_further|done].
    + apply finally_crashed in He as [?|Hsd]; [done|by right].
    + apply finally_crashed in He as [Hpending|Hsd]; [|by right].
      inversion Hpending; subst e0. left. exists env.
      split; [apply list_elem_of_here|by apply Hit].
Qed.

End Session.

(** ** The hand-off, call by call *)

Section Handoff.

Lemma handoff_step_ok (c : call) (s s' : handoff) :
  handoff_ok s → handoff_step c s = Some s' → handoff_ok s'.
Proof.
  unfold handoff_ok, handoff_step. destruct s as [p [cap frames] seen]. simpl.
  intros (-> & Hlen & Hput) Hstep.
  assert (∀ stream, p = AtPut stream → length frames < 30)%nat as Hroom by done.
  clear Hput.
  destruct c, p; try done;
    unfold q_put, q_get, q_full, qsize, StreamCapture.get_frame, q_get_nowait in Hstep;
    simpl in Hstep.
  - inversion Hstep; subst s'; simpl. repeat split; done.
  - destruct (Z.leb_spec 30 (Z.of_nat (length frames)));
      simpl in Hstep; inversion Hstep; subst s'; simpl;
      repeat split; try done; intros; lia.
  - destruct frames as [|a rest]; [done|].
    simpl in *. inversion Hstep; subst s'; simpl.
    repeat split; try done; try lia; intros; lia.
  - specialize (Hroom stream eq_refl).
    destruct (Z.leb_spec 30 (Z.of_nat (length frames))); [lia|].
    simpl in Hstep. inversion Hstep; subst s'; simpl.
    rewrite length_app. simpl. repeat split; try done; lia.
  - destruct frames as [|a rest]; inversion Hstep; subst s'; simpl in *;
      repeat split; try done; lia.
  - destruct frames as [|a rest]; inversion Hstep; subst s'; simpl in *;
      repeat split; try done; lia.
  - destruct frames as [|a rest]; inversion Hstep; subst s'; simpl in *;
      repeat split; try done; try lia;
      intros stream' Heq; specialize (Hroom stream' Heq); simpl in Hroom; lia.
  - destruct frames as [|a rest]; inversion Hstep; subst s'; simpl in *;
      repeat split; try done; lia.
Qed.

Lemma handoff_run_ok (calls : list call) (s s' : handoff) :
  handoff_ok s → handoff_run calls s = Some s' → handoff_ok s'.
Proof.
  revert s. induction calls as [|c calls IH]; intros s Hok Hrun; simpl in Hrun.
  - by inversion Hrun; subst.
  - destruct (handoff_step c s) as [s1|] eqn:Hstep; [|done].
    simpl in Hrun. eapply IH; [|done]. by eapply handoff_step_ok.
Qed.

Lemma handoff_start_ok : handoff_ok handoff_start.
Proof. unfold handoff_ok. simpl. repeat split; try done; lia. Qed.

(** However the calls of the capture thread and the polls of the main
    loop interleave, the queue never holds more than 30 frames, and
    neither [full()], nor [put], nor a poll ever blocks. *)
Theorem handoff_bounded (calls : list call) (s : handoff) :
  handoff_run calls handoff_start = Some s →
  (length (items (queue s)) ≤ 30)%nat
  ∧ (∀ stream, at_line s = AtFull stream ∨ at_line s = AtPut stream →
               is_Some (handoff_step Produce s))
  ∧ is_Some (handoff_step Poll s).
Proof.
  intros Hrun.
  destruct (handoff_run_ok calls handoff_start s handoff_start_ok Hrun)
    as (Hmax & Hlen & Hput).
  split; [done|]. split.
  - intros stream [Hline|Hline]; unfold handoff_step; rewrite Hline.
    + by destruct (q_full (queue s)).
    + unfold q_put, q_full, qsize. rewrite Hmax.
      specialize (Hput stream Hline).
      destruct (Z.leb_spec 30 (Z.of_nat (length (items (queue s))))); [lia|].
      by simpl.
  - unfold handoff_step.
    destruct (get_frame_returns (queue s)) as (f & q & ->).
    by destruct (at_line s).
Qed.

Lemma handoff_step_frames (c : call) (s s' : handoff) :
  handoff_step c s = Some s' →
  frames_of s' `sublist_of` frames_of s ++ streams_of [c].
Proof.
  unfold handoff_step, frames_of. destruct s as [p [cap frames] seen]. simpl.
  intros Hstep.
  destruct c, p; try done;
    unfold q_put, q_get, StreamCapture.get_frame, q_get_nowait in Hstep;
    simpl in Hstep; repeat (case_match; simpl in Hstep); simplify_eq; simpl;
    rewrite ?omap_app, ?app_nil_r, <- ?app_assoc; simpl;
    rewrite ?app_nil_r; try done.
  apply sublist_app; [done|]. by apply sublist_cons.
Qed.

Lemma handoff_run_frames (calls : list call) (s s' : handoff) (history : list ndarray) :
  frames_of s `sublist_of` history →
  handoff_run calls s = Some s' →
  frames_of s' `sublist_of` history ++ streams_of calls.
Proof.
  revert s history. induction calls as [|c calls IH]; intros s history Hs Hrun;
    simpl in Hrun.
  - inversion Hrun; subst. unfold streams_of. simpl. by rewrite app_nil_r.
  - destruct (handoff_step c s) as [s1|] eqn:Hstep; [|done].
    simpl in Hrun.
    change (c :: calls) with ([c] ++ calls).
    unfold streams_of. rewrite omap_app, app_assoc.
    apply (IH s1); [|done].
    etrans; [by apply handoff_step_frames|].
    by apply sublist_app.
Qed.

(** However the calls interleave, the frames polled so far, then those
    in the queue, then the one the capture thread holds, are in the
    order in which they were extracted: the main loop polls frames
    oldest first, and none that was not extracted. *)
Theorem handoff_fifo (calls : list call) (s : handoff) :
  handoff_run calls handoff_start = Some s →
  frames_of s `sublist_of` streams_of calls.
Proof.
  intros Hrun.
  apply (handoff_run_frames calls handoff_start s [] ltac:(done) Hrun).
Qed.

(** The capture thread can block: when the queue is full at [full()]
    and the main loop polls it empty before the capture thread reaches
    [get()], that [get()] waits on an empty queue that only the
    capture thread itself fills. *)
Theorem handoff_get_can_block (stream : ndarray) :
  ∃ s : handoff,
    handoff_run (drained_after_full stream) handoff_start = Some s
    ∧ at_line s = AtGet stream
    ∧ items (queue s) = []
    ∧ handoff_step Produce s = None.
Proof. eexists. vm_compute. repeat split. Qed.

(** Without a poll in between, the calls of one turn of the capture
    thread do what [publish] does. *)
Theorem handoff_turn_is_publish (q : Queue ndarray) (stream : ndarray)
        (seen : list (option ndarray)) :
  handoff_run (Extracted stream :: replicate (if q_full q then 3 else 2) Produce)
              (mkHandoff AtTop q seen)
  = (fun q' => mkHandoff AtTop q' seen) <$> StreamCapture.publish q stream.
Proof.
  unfold StreamCapture.publish. simpl.
  destruct (q_full q) eqn:Hfull; simpl; rewrite Hfull; simpl.
  - destruct (q_get q) as [[old q1]|]; simpl; [|done].
    by destruct (q_put q1 stream).
  - by destruct (q_put q stream).
Qed.

End Handoff.

(** ** Witnesses and examples for the orchestrator *)

Lemma handle_input_keeps_size_floor_witness :
  50 <= width (sys_config
                 (UnifiedStreamSystem._handle_input (H := icon_then_stream)
                    (pressed 45) (with_config (region 40 330 55 52) fresh_system)).2)
  ∧ 50 <= height (sys_config
                    (UnifiedStreamSystem._handle_input (H := icon_then_stream)
                       (pressed 45) (with_config (region 40 330 55 52) fresh_system)).2).
Proof.
  apply (handle_input_keeps_size_floor (H := icon_then_stream));
    [discriminate|discriminate|discriminate].
Defined.

(** The key [c] is the exception: a selection of 10 by 10 pixels
    becomes the region. *)
Example calibrate_below_floor :
  sys_config (UnifiedStreamSystem._handle_input (H := icon_then_stream)
                (pressed 99) fresh_system).2
  = region 5 5 10 10.
Proof. reflexivity. Qed.


(** The same session with a display that raises in its last iteration:
    the exception leaves [run_interactive], and the configuration is on
    file all the same. *)
Example session_crash_saves :
  UnifiedStreamSystem.run_interactive
    (H := box_drawing) (H0 := icon_then_stream) (H1 := ample_memory)
    clean_shutdown blind_events demo_start
  = (UnifiedStreamSystem.Crashed Cv2Error,
     mkSystem (region 6 1 2 2) StreamCapture.new_frame_queue
              {["stream_config.json" := Json (ConfigManager.record_of (region 6 1 2 2))]}
              []
              [OverlayRenderer.render (H := box_drawing) (region 1 1 2 2)
                 (mk_ndarray 2 [ [px 6; px 7]; [px 10; px 11] ])]).
Proof. vm_compute. reflexivity. Qed.

(** With a capture thread that is blocked in [get], [run_interactive]
    does not return and nothing is saved; with a configuration file that
    cannot be opened, the last [save] raises. *)
Example session_hangs_or_fails :
  UnifiedStreamSystem.run_interactive
    (H := box_drawing) (H0 := icon_then_stream) (H1 := ample_memory)
    (mkShutdown false None Written) demo_events demo_start
  = (UnifiedStreamSystem.Hung,
     mkSystem (region 6 1 2 2) StreamCapture.new_frame_queue demo_fs []
              [OverlayRenderer.render (H := box_drawing) (region 1 1 2 2)
                 (mk_ndarray 2 [ [px 6; px 7]; [px 10; px 11] ]);
               OverlayRenderer.render (H := box_drawing) (region 6 1 2 2)
                 (mk_ndarray 2 [ [black; black]; [black; black] ])])
  ∧ (UnifiedStreamSystem.run_interactive
       (H := box_drawing) (H0 := icon_then_stream) (H1 := ample_memory)
       (mkShutdown true None NotOpened) demo_events demo_start).1
    = UnifiedStreamSystem.Crashed OSError.
Proof. split; vm_compute; reflexivity. Qed.

Lemma run_interactive_crashes_from_outside_witness :
  (∃ env : Env,
     UnifiedStreamSystem.Iteration env ∈ blind_events
     ∧ iteration_raises env Cv2Error)
  ∨ shutdown_raises clean_shutdown Cv2Error.
Proof.
  apply (run_interactive_crashes_from_outside
           (H := box_drawing) (H0 := icon_then_stream) (H1 := ample_memory)
           clean_shutdown blind_events demo_start Cv2Error).
  vm_compute. reflexivity.
Defined.

Lemma handoff_bounded_witness :
  (length (items (queue (mkHandoff AtTop (mkQueue 30 []) [Some frame44]))) ≤ 30)%nat
  ∧ is_Some (handoff_step Poll (mkHandoff AtTop (mkQueue 30 []) [Some frame44])).
Proof.
  assert (handoff_run demo_calls handoff_start
          = Some (mkHandoff AtTop (mkQueue 30 []) [Some frame44])) as Hrun
    by reflexivity.
  destruct (handoff_bounded demo_calls _ Hrun) as (Hlen & _ & Hpoll).
  split; [exact Hlen|exact Hpoll].
Defined.

Lemma handoff_fifo_witness :
  frames_of (mkHandoff AtTop (mkQueue 30 []) [Some frame44])
  `sublist_of` streams_of demo_calls.
Proof.
  assert (handoff_run demo_calls handoff_start
          = Some (mkHandoff AtTop (mkQueue 30 []) [Some frame44])) as Hrun
    by reflexivity.
  exact (handoff_fifo demo_calls _ Hrun).
Defined.

(** ** How moves and resizes compose *)

Section Composition.
Import MovementController.

(** Two relative moves under one speed tier are one move by the sum of
    the steps; in particular a move and the opposite move leave the
    configuration as it was. *)
Theorem move_composes (c : StreamConfig Z) (dx1 dy1 dx2 dy2 : Z) :
  move (move c dx1 dy1 true) dx2 dy2 true = move c (dx1 + dx2) (dy1 + dy2) true
  ∧ move (move c dx1 dy1 true) (- dx1) (- dy1) true = c.
Proof.
  destruct c. unfold move, set_x, set_y. simpl. split; f_equal; lia.
Qed.

(** A resize that stays at or above the floor of 50 is undone by the
    opposite resize; one that was stopped by the floor is not. *)
Theorem resize_undone_above_floor (c : StreamConfig Z) (dw dh : Z) :
  50 <= width c → 50 <= height c →
  50 <= width c + dw → 50 <= height c + dh →
  resize (resize c dw dh) (- dw) (- dh) = c.
Proof.
  intros Hw Hh Hw' Hh'. destruct c. unfold resize, set_width, set_height. simpl in *.
  f_equal; lia.
Qed.

Lemma resize_undone_above_floor_witness :
  resize (resize default_config (-10) (-10)) (- -10) (- -10) = default_config.
Proof.
  apply resize_undone_above_floor; discriminate.
Defined.

Example resize_not_undone_at_floor :
  resize (resize default_config (-400) (-400)) 400 400 = region 40 330 450 450.
Proof. reflexivity. Qed.

End Composition.

(** ** More on rendering, loading and the main loop *)

Section RenderShape.
Import OverlayRenderer.
Context `{D : Drawing}.
Hypothesis drawing_ok : shape_preserving D.

Lemma same_shape_trans (a b c : ndarray) :
  same_shape a b → same_shape b c → same_shape a c.
Proof. unfold same_shape. intros [] []. split; congruence. Qed.

Lemma same_shape_refl (a : ndarray) : same_shape a a.
Proof. by split. Qed.

Lemma layer_keeps_shape (config : StreamConfig Z) (m : OverlayMode) (frame : ndarray) :
  same_shape (layer config m frame) frame.
Proof.
  destruct drawing_ok as (Hrect & Hline & Hcircle & Htext & Hblend).
  destruct m; simpl.
  - apply same_shape_refl.
  - unfold _draw_border. destruct screen_size as [screen_w screen_h]. simpl.
    repeat (eapply same_shape_trans; [apply Hline|]). apply Hrect.
  - unfold _draw_info.
    repeat (eapply same_shape_trans; [apply Htext|]). apply Hblend, Hrect.
  - unfold _draw_guides. simpl.
    eapply same_shape_trans; [apply Hcircle|].
    repeat (eapply same_shape_trans; [apply Hline|]). apply same_shape_refl.
  - unfold _draw_debug. apply Htext.
Qed.

(** With drawing operations that keep the extents of the frame they
    paint, [render] returns a frame of the extents of its input, in
    every overlay mode. *)
Theorem render_keeps_shape (config : StreamConfig Z) (frame : ndarray) :
  same_shape (render config frame) frame.
Proof.
  rewrite render_as_layers. unfold draw_layers.
  generalize (modes_between NONE (overlay_mode config)). intros ms.
  induction ms as [|m ms IH] using rev_ind; simpl; [apply same_shape_refl|].
  rewrite foldl_snoc.
  eapply same_shape_trans; [apply layer_keeps_shape|exact IH].
Qed.

End RenderShape.

Lemma paint_box_shape (img : ndarray) (p q : point) (c : pixel) :
  same_shape (paint_box img p q c) img.
Proof. unfold same_shape, paint_box, nrows. simpl. by rewrite length_imap. Qed.

Lemma box_drawing_shape_preserving : shape_preserving box_drawing.
Proof.
  unfold shape_preserving. simpl.
  repeat split; intros; try apply paint_box_shape; by destruct H.
Qed.

Lemma render_keeps_shape_witness :
  same_shape (OverlayRenderer.render (H := box_drawing)
                (set_overlay_mode DEBUG default_config) frame44) frame44.
Proof.
  exact (render_keeps_shape (D := box_drawing) box_drawing_shape_preserving
           (set_overlay_mode DEBUG default_config) frame44).
Defined.

Section LoadDomain.
Import ConfigManager UnifiedStreamSystem.

(** [load] returns [True] exactly when the file holds a JSON object
    whose overlay_mode (2 when absent) and movement_mode (5 when
    absent) name members; the values of x, y, width and height play no
    part: whatever the object holds for them is stored. *)
Theorem load_succeeds_iff (fs : gmap string file) (config : StreamConfig value) :
  (load fs config).1 = true
  ↔ ∃ (d : list (string * value)) (om : OverlayMode) (mm : MovementMode),
      fs !! config_file config = Some (Json (VDict d))
      ∧ OverlayMode_call (default (VInt 2) (assoc d "overlay_mode")) = Ok om
      ∧ MovementMode_call (default (VInt 5) (assoc d "movement_mode")) = Ok mm.
Proof.
  unfold load. split.
  - destruct (fs !! config_file config) as [f|]; [|done].
    destruct (file_dict_or_not f) as [[d ->]|Hnot].
    + rewrite load_body_dict. simpl.
      destruct (OverlayMode_call _) as [om|] eqn:Hom; [|done].
      destruct (MovementMode_call _) as [mm|] eqn:Hmm; [|done].
      intros _. by exists d, om, mm.
    + by destruct (load_body_not_dict f config Hnot) as [e ->].
  - intros (d & om & mm & -> & Hom & Hmm).
    rewrite load_body_dict. simpl. by rewrite Hom, Hmm.
Qed.

(** A record whose x is a string loads, and the string becomes x. *)
Example load_stores_any_value :
  load {["stream_config.json" := Json (VDict [("x", VStr "left")])]}
       (as_object default_config)
  = (true, set_x (VStr "left") (as_object default_config)).
Proof. vm_compute. reflexivity. Qed.

(** Without a configuration file, with one that is not JSON and with
    JSON that is not an object, [__init__] starts from the defaults. *)
Theorem init_defaults (fs : gmap string file) :
  (fs !! "stream_config.json" = None
   ∨ ∃ f, fs !! "stream_config.json" = Some f ∧ ∀ d, f ≠ Json (VDict d)) →
  init fs = Some (mkSystem default_config StreamCapture.new_frame_queue fs [] []).
Proof.
  unfold init, load. simpl. intros [->|(f & -> & Hnot)]; [done|].
  by destruct (load_body_not_dict f (as_object default_config) Hnot) as [e ->].
Qed.

Lemma init_defaults_witness :
  init corrupt_fs
  = Some (mkSystem default_config StreamCapture.new_frame_queue corrupt_fs [] []).
Proof.
  apply init_defaults. right. exists NotJson.
  split; [vm_compute; reflexivity|done].
Defined.

(** A record that [load] gives up on half way leaves its mark: the
    orchestrator starts with the x of the record and the rest at the
    defaults. *)
Example init_after_bad_mode :
  init bad_mode_fs
  = Some (mkSystem (set_x 1 default_config) StreamCapture.new_frame_queue bad_mode_fs [] []).
Proof. vm_compute. reflexivity. Qed.

End LoadDomain.

Section Snapshot.
Import UnifiedStreamSystem.
Context `{Drawing} `{Vision}.

(** An iteration in which the space bar is down and the display does
    not raise shows the oldest queued frame, rendered, and hands
    [cv2.imwrite] the frame at the head of the queue as the capture
    thread has left it in the meantime, raw, under the name of the time
    stamp: the frame saved is taken from the queue after the frame
    shown.  With nothing queued by then, no image is written.  When
    [cv2.imwrite] returns [False] no image is written and the loop goes
    on; when it raises, the iteration raises and the frame is gone from
    the queue. *)
Theorem iteration_snapshot (env : Env) (s : System) (first : ndarray)
        (more : list ndarray) :
  Z.land (waitKey env) 255 = ord " " →
  items (sys_queue s) = first :: more →
  display_raises env = None →
  iteration env s
  = let shown := sys_shown s ++ [OverlayRenderer.render (sys_config s) first] in
    let q := meanwhile env (mkQueue (maxsize (sys_queue s)) more) in
    let name := ("snapshot_" ++ strftime env ++ ".png")%string in
    match items q with
    | [] => (Ok true, mkSystem (sys_config s) q (sys_fs s) (sys_images s) shown)
    | second :: rest =>
        let left := mkQueue (maxsize q) rest in
        match imwrite_answer env with
        | Raise e =>
            (Raise e, mkSystem (sys_config s) left (sys_fs s) (sys_images s) shown)
        | Ok false =>
            (Ok true, mkSystem (sys_config s) left (sys_fs s) (sys_images s) shown)
        | Ok true =>
            (Ok true,
             mkSystem (sys_config s) left (<[name := NotJson]> (sys_fs s))
                      ((name, second) :: sys_images s) shown)
        end
    end.
Proof.
  intros Hkey Hitems Hdisplay.
  unfold iteration, StreamCapture.get_frame, q_get_nowait.
  rewrite Hitems, Hdisplay.
  unfold _handle_input. simpl. rewrite Hkey. simpl.
  unfold StreamCapture.get_frame, q_get_nowait, imwrite. simpl.
  destruct (items (meanwhile env _)) as [|second rest]; [done|].
  by destruct (imwrite_answer env) as [[|]|e].
Qed.

End Snapshot.

Lemma iteration_snapshot_witness :
  sys_images
    (UnifiedStreamSystem.iteration (H := box_drawing) (H0 := icon_then_stream)
       (pressed 32)
       (with_queue (mkQueue 30 [frame44; screen_1080p]) fresh_system)).2
  = [("snapshot_19700101_000000.png", screen_1080p)].
Proof.
  rewrite (iteration_snapshot (H := box_drawing) (H0 := icon_then_stream)
             (pressed 32) (with_queue (mkQueue 30 [frame44; screen_1080p]) fresh_system)
             frame44 [screen_1080p] eq_refl eq_refl eq_refl).
  reflexivity.
Defined.

(** With one frame queued and a capture thread that puts another while
    the first is shown, the snapshot is the frame put in the meantime. *)
Example snapshot_of_later_frame :
  sys_images
    (UnifiedStreamSystem.iteration (H := box_drawing) (H0 := icon_then_stream)
       (pressed_while_putting 32 screen_1080p)
       (with_queue (mkQueue 30 [frame44]) fresh_system)).2
  = [("snapshot_19700101_000000.png", screen_1080p)].
Proof. reflexivity. Qed.
